(** * Contact analysis pipeline: a shallow embedding of
      [contact_analysis_pipeline.py] (class [ContactDataAnalyzer]).

    Text cells are Rocq strings of ASCII characters; integer columns are
    [Z]; a null cell (None, NaN, NaT) is [None].  pandas works column by
    column; every column expression of the source is a function of the row
    it is computed for (the label encoder apart, which scans the whole
    column first), so the frame is embedded as a list of row records and
    each [df["col"] = ...] statement as a function named after its column. *)

From Stdlib Require Import ZArith List Bool String Ascii Lia Sorted.
Import ListNotations.

Local Open Scope string_scope.
Local Open Scope Z_scope.

(** ** Text primitives (Python [str] methods used through [.str]) *)

Module Text.

(** [str.isspace] on ASCII: TAB..CR, FS..US and the blank. *)
Definition is_space (c : ascii) : bool :=
  let n := nat_of_ascii c in
  ((9 <=? n) && (n <=? 13) || (28 <=? n) && (n <=? 32))%nat.

Definition is_digit (c : ascii) : bool :=
  let n := nat_of_ascii c in ((48 <=? n) && (n <=? 57))%nat.

Definition is_upper (c : ascii) : bool :=
  let n := nat_of_ascii c in ((65 <=? n) && (n <=? 90))%nat.

Definition is_lower (c : ascii) : bool :=
  let n := nat_of_ascii c in ((97 <=? n) && (n <=? 122))%nat.

(** The class [\w] of [re] on ASCII text. *)
Definition is_word (c : ascii) : bool :=
  is_upper c || is_lower c || is_digit c || Ascii.eqb c "_".

Definition lower_char (c : ascii) : ascii :=
  if is_upper c then ascii_of_nat (nat_of_ascii c + 32) else c.

Fixpoint lower (s : string) : string :=
  match s with
  | EmptyString => EmptyString
  | String c r => String (lower_char c) (lower r)
  end.

Definition is_empty (s : string) : bool :=
  match s with EmptyString => true | _ => false end.

Fixpoint lstrip (s : string) : string :=
  match s with
  | EmptyString => EmptyString
  | String c r => if is_space c then lstrip r else s
  end.

Fixpoint rstrip (s : string) : string :=
  match s with
  | EmptyString => EmptyString
  | String c r =>
      let r' := rstrip r in
      if is_space c && is_empty r' then EmptyString else String c r'
  end.

(** [str.strip()] *)
Definition strip (s : string) : string := rstrip (lstrip s).

(** [len(s)] as a Python int. *)
Definition len (s : string) : Z := Z.of_nat (String.length s).

(** [str.split()] with no separator: maximal runs of non-blank characters.
    [cur] is the token being read. *)
Fixpoint split_ws_from (cur s : string) : list string :=
  match s with
  | EmptyString => if is_empty cur then [] else [cur]
  | String c r =>
      if is_space c
      then (if is_empty cur then split_ws_from EmptyString r
            else cur :: split_ws_from EmptyString r)
      else split_ws_from (cur ++ String c EmptyString) r
  end.

Definition split_ws (s : string) : list string := split_ws_from EmptyString s.

(** [str.split(sep)] for a one-character separator: never the empty list. *)
Fixpoint split_on_from (sep : ascii) (cur s : string) : list string :=
  match s with
  | EmptyString => [cur]
  | String c r =>
      if Ascii.eqb c sep then cur :: split_on_from sep EmptyString r
      else split_on_from sep (cur ++ String c EmptyString) r
  end.

Definition split_on (sep : ascii) (s : string) : list string :=
  split_on_from sep EmptyString s.

(** [re.sub(r"\D", "", s)]: the digits of [s], in order. *)
Fixpoint remove_non_digits (s : string) : string :=
  match s with
  | EmptyString => EmptyString
  | String c r =>
      if is_digit c then String c (remove_non_digits r) else remove_non_digits r
  end.

(** [s[:n]] *)
Fixpoint take (n : nat) (s : string) : string :=
  match n, s with
  | O, _ => EmptyString
  | S _, EmptyString => EmptyString
  | S m, String c r => String c (take m r)
  end.

(** [s[-1]] and [s[0]], where there is one. *)
Fixpoint last_char (s : string) : option ascii :=
  match s with
  | EmptyString => None
  | String c r =>
      match last_char r with
      | Some d => Some d
      | None => Some c
      end
  end.

Definition first_char (s : string) : option ascii :=
  match s with
  | EmptyString => None
  | String c _ => Some c
  end.

End Text.

(** ** The fragment of [re] the pipeline's patterns are written in

    Literals, the word boundary [\b], concatenation, alternation and [?].
    None of the patterns has a repetition, so matching is structural in the
    pattern. *)

Module Re.

Inductive regex : Type :=
| Nul
| Eps
| Lit (c : ascii)
| Bnd
| Seq (a b : regex)
| Alt (a b : regex)
| Opt (a : regex).

(** A literal matches the next character; under [re.IGNORECASE]
    ([case=False]) letters match in either case. *)
Definition chr_match (ignorecase : bool) (c d : ascii) : bool :=
  if ignorecase then Ascii.eqb (Text.lower_char c) (Text.lower_char d)
  else Ascii.eqb c d.

Definition word_opt (o : option ascii) : bool :=
  match o with Some c => Text.is_word c | None => false end.

(** [\b] between the character before the position ([prev]) and the text
    that follows it. *)
Definition boundary (prev : option ascii) (s : string) : bool :=
  xorb (word_opt prev) (word_opt (Text.first_char s)).

(** Backtracking match of [r] at the head of [s]; [k] is what remains to
    be matched, given the last character consumed and the rest. *)
Fixpoint rmatch (ic : bool) (r : regex) (prev : option ascii) (s : string)
  (k : option ascii -> string -> bool) : bool :=
  match r with
  | Nul => false
  | Eps => k prev s
  | Lit c =>
      match s with
      | EmptyString => false
      | String d s' => if chr_match ic c d then k (Some d) s' else false
      end
  | Bnd => if boundary prev s then k prev s else false
  | Seq a b => rmatch ic a prev s (fun p s' => rmatch ic b p s' k)
  | Alt a b => rmatch ic a prev s k || rmatch ic b prev s k
  | Opt a => rmatch ic a prev s k || k prev s
  end.

Definition match_here (ic : bool) (r : regex) (prev : option ascii)
  (s : string) : bool :=
  rmatch ic r prev s (fun _ _ => true).

(** [re.search]: a match starting at some position of the text. *)
Fixpoint search_from (ic : bool) (r : regex) (prev : option ascii)
  (s : string) : bool :=
  match_here ic r prev s ||
  match s with
  | EmptyString => false
  | String c s' => search_from ic r (Some c) s'
  end.

(** [Series.str.contains(pat, case=..., na=False)] on a text cell. *)
Definition contains (case : bool) (r : regex) (s : string) : bool :=
  search_from (negb case) r None s.

(** What a word of literals consumes at the head of [s]: the last character
    read and the rest, if the word is there. *)
Fixpoint strip_word (ic : bool) (w : string) (prev : option ascii)
  (s : string) : option (option ascii * string) :=
  match w with
  | EmptyString => Some (prev, s)
  | String c w' =>
      match s with
      | EmptyString => None
      | String d s' =>
          if chr_match ic c d then strip_word ic w' (Some d) s' else None
      end
  end.

Definition starts_with (ic : bool) (w : string) (s : string) : bool :=
  match strip_word ic w None s with Some _ => true | None => false end.

(** A word of literals, and an alternation of words ([Nul], which matches
    nothing, closes the alternation). *)
Fixpoint word (w : string) : regex :=
  match w with
  | EmptyString => Eps
  | String c w' => Seq (Lit c) (word w')
  end.

Fixpoint any_of (ws : list string) : regex :=
  match ws with
  | [] => Nul
  | w :: ws' => Alt (word w) (any_of ws')
  end.

End Re.

(** ** Timestamps

    A pandas [Timestamp] is a count of nanoseconds since 1970-01-01T00:00;
    [NaT] is [None].  The instants of a contact book lie centuries inside
    the 64-bit range, and differences are taken exactly. *)

Module Time.

Definition ns_per_hour : Z := 3600 * 1000000000.
Definition ns_per_day : Z := 24 * ns_per_hour.

(** [pd.Timedelta(days=1)] *)
Definition one_day : Z := ns_per_day.

(** Days since the epoch (floor), as [Timedelta.days] and the date part. *)
Definition days_of (ns : Z) : Z := ns / ns_per_day.

Definition hour_of (ns : Z) : Z := (ns mod ns_per_day) / ns_per_hour.

(** [dt.dayofweek]: Monday is 0; the epoch was a Thursday. *)
Definition dayofweek_of (ns : Z) : Z := (days_of ns + 3) mod 7.

(** Proleptic Gregorian year and month of a day count (era arithmetic on
    400-year cycles starting on 1 March). *)
Definition civil_of_days (d : Z) : Z * Z :=
  let z := d + 719468 in
  let era := z / 146097 in
  let doe := z mod 146097 in
  let yoe := (doe - doe / 1460 + doe / 36524 - doe / 146096) / 365 in
  let doy := doe - (365 * yoe + yoe / 4 - yoe / 100) in
  let mp := (5 * doy + 2) / 153 in
  let m := if mp <? 10 then mp + 3 else mp - 9 in
  let y := yoe + era * 400 in
  (if m <=? 2 then y + 1 else y, m).

Definition year_of (ns : Z) : Z := fst (civil_of_days (days_of ns)).
Definition month_of (ns : Z) : Z := snd (civil_of_days (days_of ns)).

End Time.

(** ** Data model *)

(** A [created_at] / [updated_at] cell as extracted: an instant, a value
    [pd.to_datetime] cannot parse, or NULL. *)
Inductive raw_timestamp : Type :=
| Instant (ns : Z)
| Unparseable (text : string)
| NullTime.

Module Raw.

(** One row of [SELECT id, name, phone, category, email, notes, created_at,
    updated_at FROM contacts]. *)
Record ContactRecord : Type := {
  id : Z;
  name : string;
  phone : string;
  category : option string;
  email : option string;
  notes : option string;
  created_at : raw_timestamp;
  updated_at : raw_timestamp
}.

End Raw.

(** ** pandas cell operations *)

(** [Series.astype(str)]: a null cell becomes the text of [None]. *)
Definition astype_str (cell : option string) : string :=
  match cell with Some s => s | None => "None" end.

(** [Series.fillna(v)] *)
Definition fillna (v : string) (cell : option string) : string :=
  match cell with Some s => s | None => v end.

(** [Series.notna()] *)
Definition notna {A : Type} (cell : option A) : bool :=
  match cell with Some _ => true | None => false end.

(** [Series.where(cond)]: the cell where [cond] holds, null elsewhere. *)
Definition where_ {A : Type} (cell : A) (cond : bool) : option A :=
  if cond then Some cell else None.

(** [Series.isin(values)]: a null cell is in no set of values. *)
Definition isin_str (values : list string) (cell : option string) : bool :=
  match cell with
  | Some s => existsb (String.eqb s) values
  | None => false
  end.

Definition isin_int (values : list Z) (cell : option Z) : bool :=
  match cell with
  | Some z => existsb (Z.eqb z) values
  | None => false
  end.

(** [.astype(int)] of a boolean column. *)
Definition astype_int (b : bool) : Z := Z.b2z b.

(** [~] on an int64 column: bitwise complement. *)
Definition invert_int (z : Z) : Z := Z.lnot z.

(** [pd.to_datetime(col, errors="coerce")]: what does not parse is NaT. *)
Definition to_datetime (cell : raw_timestamp) : option Z :=
  match cell with
  | Instant ns => Some ns
  | Unparseable _ => None
  | NullTime => None
  end.

(** Difference of two datetime cells; NaT on either side gives NaT. *)
Definition sub_datetime (a b : option Z) : option Z :=
  match a, b with
  | Some x, Some y => Some (x - y)
  | _, _ => None
  end.

(** [delta > limit] on a timedelta cell: a comparison with NaT is False. *)
Definition gt_timedelta (delta : option Z) (limit : Z) : bool :=
  match delta with
  | Some d => limit <? d
  | None => false
  end.

(** ** Column expressions of [clean_and_engineer_features] *)

(** *** Name *)

Definition title_tokens : list string :=
  ["Dr"; "Mr"; "Mrs"; "Ms"; "Prof"; "Eng"; "Sir"; "Lady"].

(** [r"\b(Dr|Mr|Mrs|Ms|Prof|Eng|Sir|Lady)\.?"] *)
Definition title_pattern : Re.regex :=
  Re.Seq Re.Bnd (Re.Seq (Re.any_of title_tokens) (Re.Opt (Re.Lit "."))).

Definition company_tokens : list string :=
  ["Inc"; "Ltd"; "Corp"; "LLC"; "GmbH"; "Co."; "Company"].

(** [r"\b(Inc|Ltd|Corp|LLC|GmbH|Co\.|Company)\b"] *)
Definition company_pattern : Re.regex :=
  Re.Seq Re.Bnd (Re.Seq (Re.any_of company_tokens) Re.Bnd).

Definition name (raw_name : string) : string := Text.strip raw_name.
Definition name_length (nm : string) : Z := Text.len nm.
Definition name_words (nm : string) : Z :=
  Z.of_nat (List.length (Text.split_ws nm)).
Definition has_title (nm : string) : Z :=
  astype_int (Re.contains false title_pattern nm).
Definition is_company (nm : string) : Z :=
  astype_int (Re.contains true company_pattern nm).

(** *** Phone *)

(** [r"x|ext|#"] *)
Definition extension_pattern : Re.regex := Re.any_of ["x"; "ext"; "#"].

Definition phone_clean (raw_phone : string) : string :=
  Text.remove_non_digits raw_phone.
Definition phone_digit_count (clean : string) : Z := Text.len clean.
Definition is_international (digit_count : Z) : Z :=
  astype_int (10 <? digit_count).
Definition area_code (clean : string) (digit_count : Z) : option string :=
  where_ (Text.take 3 clean) (10 <=? digit_count).
Definition has_extension (raw_phone : string) : Z :=
  astype_int (Re.contains false extension_pattern raw_phone).

(** *** Email *)

Definition free_domains : list string :=
  ["gmail.com"; "yahoo.com"; "hotmail.com"; "outlook.com"; "icloud.com";
   "proton.me"].

Definition has_email (raw_email : option string) : Z :=
  astype_int (notna raw_email).
Definition email_domain (raw_email : option string) (has : Z) : option string :=
  where_
    (Text.lower (List.last (Text.split_on "@" (astype_str raw_email)) ""))
    (has =? 1).
Definition email_is_free (domain : option string) : Z :=
  astype_int (isin_str free_domains domain).

(** *** Notes *)

(** [r"https?://"] *)
Definition url_pattern : Re.regex :=
  Re.Seq (Re.word "http") (Re.Seq (Re.Opt (Re.Lit "s")) (Re.word "://")).

Definition has_notes (raw_notes : option string) : Z :=
  astype_int (notna raw_notes).
Definition notes_length (raw_notes : option string) : Z :=
  Text.len (fillna "" raw_notes).
Definition notes_word_count (raw_notes : option string) : Z :=
  Z.of_nat (List.length (Text.split_ws (fillna "" raw_notes))).
Definition notes_has_url (raw_notes : option string) : Z :=
  astype_int (Re.contains false url_pattern (astype_str raw_notes)).

(** *** Time; [now] is the value of [datetime.now()] *)

Definition created_year (created : option Z) : option Z :=
  option_map Time.year_of created.
Definition created_month (created : option Z) : option Z :=
  option_map Time.month_of created.
Definition created_dayofweek (created : option Z) : option Z :=
  option_map Time.dayofweek_of created.
Definition created_hour (created : option Z) : option Z :=
  option_map Time.hour_of created.
Definition is_weekend (dayofweek : option Z) : Z :=
  astype_int (isin_int [5; 6] dayofweek).
Definition days_since_creation (now : Z) (created : option Z) : option Z :=
  option_map Time.days_of (sub_datetime (Some now) created).
Definition was_recently_updated (updated created : option Z) : Z :=
  astype_int (gt_timedelta (sub_datetime updated created) Time.one_day).

(** *** Target *)

Definition category (raw_category : option string) : string :=
  Text.strip (fillna "Other" raw_category).

(** *** Composite quality score

    [email_is_free] is an integer column, so [~] complements its bits and
    the [.astype(int)] that follows changes nothing. *)

Definition contact_quality_score
  (has_email_ has_notes_ notes_length_ email_is_free_ : Z) : Z :=
  has_email_ * 3
  + has_notes_ * 2
  + astype_int (50 <? notes_length_) * 2
  + invert_int email_is_free_ * 1.

(** ** Frames *)

Module Derived.

(** A row of the local frame [df] after line 169: the extracted columns
    ([name], [category], [created_at] and [updated_at] overwritten in
    place) and the derived ones, in the order they are assigned. *)
Record FeatureRow : Type := {
  id : Z;
  name : string;
  phone : string;
  category : string;
  email : option string;
  notes : option string;
  created_at : option Z;
  updated_at : option Z;
  name_length : Z;
  name_words : Z;
  has_title : Z;
  is_company : Z;
  phone_clean : string;
  phone_digit_count : Z;
  is_international : Z;
  area_code : option string;
  has_extension : Z;
  has_email : Z;
  email_domain : option string;
  email_is_free : Z;
  has_notes : Z;
  notes_length : Z;
  notes_word_count : Z;
  notes_has_url : Z;
  created_year : option Z;
  created_month : option Z;
  created_dayofweek : option Z;
  created_hour : option Z;
  is_weekend : Z;
  days_since_creation : option Z;
  was_recently_updated : Z;
  category_encoded : Z
}.

(** A row of the frame stored in [self.df] at line 182. *)
Record EnrichedContactRecord : Type := {
  features : FeatureRow;
  contact_quality_score : Z
}.

End Derived.

(** [self.df]: the frame as extracted, or as engineered. *)
Inductive DataFrame : Type :=
| Extracted (rows : list Raw.ContactRecord)
| Engineered (rows : list Derived.EnrichedContactRecord).

Definition frame_len (f : DataFrame) : nat :=
  match f with
  | Extracted rows => List.length rows
  | Engineered rows => List.length rows
  end.

(** [df.empty] *)
Definition frame_empty (f : DataFrame) : bool :=
  match frame_len f with O => true | S _ => false end.

Definition raw_of_time (t : option Z) : raw_timestamp :=
  match t with Some ns => Instant ns | None => NullTime end.

(** The eight extracted columns of a frame, whatever else it carries. *)
Definition base_row (r : Derived.EnrichedContactRecord) : Raw.ContactRecord :=
  let f := Derived.features r in
  {| Raw.id := Derived.id f;
     Raw.name := Derived.name f;
     Raw.phone := Derived.phone f;
     Raw.category := Some (Derived.category f);
     Raw.email := Derived.email f;
     Raw.notes := Derived.notes f;
     Raw.created_at := raw_of_time (Derived.created_at f);
     Raw.updated_at := raw_of_time (Derived.updated_at f) |}.

Definition base_rows (f : DataFrame) : list Raw.ContactRecord :=
  match f with
  | Extracted rows => rows
  | Engineered rows => map base_row rows
  end.

(** ** [sklearn.preprocessing.LabelEncoder] *)

(** [classes_] exists once the encoder is fitted. *)
Record LabelEncoder : Type := { classes_ : option (list string) }.

Fixpoint insert_unique (s : string) (l : list string) : list string :=
  match l with
  | [] => [s]
  | x :: r =>
      if String.eqb s x then l
      else if String.ltb s x then s :: l
      else x :: insert_unique s r
  end.

(** [np.unique]: the distinct labels, sorted. *)
Definition np_unique (col : list string) : list string :=
  fold_right insert_unique [] col.

Fixpoint index_of (s : string) (classes : list string) : Z :=
  match classes with
  | [] => 0
  | x :: r => if String.eqb s x then 0 else 1 + index_of s r
  end.

(** [fit_transform]: the fitted encoder and the code of every label. *)
Definition fit_transform (col : list string) : LabelEncoder * list Z :=
  let classes := np_unique col in
  ({| classes_ := Some classes |}, map (fun s => index_of s classes) col).

(** ** The engineered frame *)

(** Lines 97-169 on one row; [code] is the row's entry of
    [category_encoded]. *)
Definition engineer_row (now : Z) (r : Raw.ContactRecord) (code : Z)
  : Derived.FeatureRow :=
  let nm := name (Raw.name r) in
  let clean := phone_clean (Raw.phone r) in
  let digits := phone_digit_count clean in
  let has_em := has_email (Raw.email r) in
  let domain := email_domain (Raw.email r) has_em in
  let created := to_datetime (Raw.created_at r) in
  let updated := to_datetime (Raw.updated_at r) in
  let dow := created_dayofweek created in
  {| Derived.id := Raw.id r;
     Derived.name := nm;
     Derived.phone := Raw.phone r;
     Derived.category := category (Raw.category r);
     Derived.email := Raw.email r;
     Derived.notes := Raw.notes r;
     Derived.created_at := created;
     Derived.updated_at := updated;
     Derived.name_length := name_length nm;
     Derived.name_words := name_words nm;
     Derived.has_title := has_title nm;
     Derived.is_company := is_company nm;
     Derived.phone_clean := clean;
     Derived.phone_digit_count := digits;
     Derived.is_international := is_international digits;
     Derived.area_code := area_code clean digits;
     Derived.has_extension := has_extension (Raw.phone r);
     Derived.has_email := has_em;
     Derived.email_domain := domain;
     Derived.email_is_free := email_is_free domain;
     Derived.has_notes := has_notes (Raw.notes r);
     Derived.notes_length := notes_length (Raw.notes r);
     Derived.notes_word_count := notes_word_count (Raw.notes r);
     Derived.notes_has_url := notes_has_url (Raw.notes r);
     Derived.created_year := created_year created;
     Derived.created_month := created_month created;
     Derived.created_dayofweek := dow;
     Derived.created_hour := created_hour created;
     Derived.is_weekend := is_weekend dow;
     Derived.days_since_creation := days_since_creation now created;
     Derived.was_recently_updated := was_recently_updated updated created;
     Derived.category_encoded := code |}.

(** The local frame after line 169, given the codes of the encoder. *)
Definition engineer (now : Z) (rows : list Raw.ContactRecord)
  (codes : list Z) : list Derived.FeatureRow :=
  map (fun rc => engineer_row now (fst rc) (snd rc)) (combine rows codes).

(** Lines 175-180 on one row. *)
Definition with_quality_score (f : Derived.FeatureRow)
  : Derived.EnrichedContactRecord :=
  {| Derived.features := f;
     Derived.contact_quality_score :=
       contact_quality_score (Derived.has_email f) (Derived.has_notes f)
         (Derived.notes_length f) (Derived.email_is_free f) |}.

(** ** Columns by name *)

Inductive cell : Type :=
| CNull
| CInt (z : Z)
| CStr (s : string)
| CTime (ns : Z)
| CRawTime (t : raw_timestamp).

Definition opt_int (o : option Z) : cell :=
  match o with Some z => CInt z | None => CNull end.
Definition opt_str (o : option string) : cell :=
  match o with Some s => CStr s | None => CNull end.
Definition opt_time (o : option Z) : cell :=
  match o with Some ns => CTime ns | None => CNull end.

(** The columns of a frame, in frame order, with the cells of one row. *)
Definition raw_cells (r : Raw.ContactRecord) : list (string * cell) :=
  [("id", CInt (Raw.id r));
   ("name", CStr (Raw.name r));
   ("phone", CStr (Raw.phone r));
   ("category", opt_str (Raw.category r));
   ("email", opt_str (Raw.email r));
   ("notes", opt_str (Raw.notes r));
   ("created_at", CRawTime (Raw.created_at r));
   ("updated_at", CRawTime (Raw.updated_at r))].

Definition feature_cells (f : Derived.FeatureRow) : list (string * cell) :=
  [("id", CInt (Derived.id f));
   ("name", CStr (Derived.name f));
   ("phone", CStr (Derived.phone f));
   ("category", CStr (Derived.category f));
   ("email", opt_str (Derived.email f));
   ("notes", opt_str (Derived.notes f));
   ("created_at", opt_time (Derived.created_at f));
   ("updated_at", opt_time (Derived.updated_at f));
   ("name_length", CInt (Derived.name_length f));
   ("name_words", CInt (Derived.name_words f));
   ("has_title", CInt (Derived.has_title f));
   ("is_company", CInt (Derived.is_company f));
   ("phone_clean", CStr (Derived.phone_clean f));
   ("phone_digit_count", CInt (Derived.phone_digit_count f));
   ("is_international", CInt (Derived.is_international f));
   ("area_code", opt_str (Derived.area_code f));
   ("has_extension", CInt (Derived.has_extension f));
   ("has_email", CInt (Derived.has_email f));
   ("email_domain", opt_str (Derived.email_domain f));
   ("email_is_free", CInt (Derived.email_is_free f));
   ("has_notes", CInt (Derived.has_notes f));
   ("notes_length", CInt (Derived.notes_length f));
   ("notes_word_count", CInt (Derived.notes_word_count f));
   ("notes_has_url", CInt (Derived.notes_has_url f));
   ("created_year", opt_int (Derived.created_year f));
   ("created_month", opt_int (Derived.created_month f));
   ("created_dayofweek", opt_int (Derived.created_dayofweek f));
   ("created_hour", opt_int (Derived.created_hour f));
   ("is_weekend", CInt (Derived.is_weekend f));
   ("days_since_creation", opt_int (Derived.days_since_creation f));
   ("was_recently_updated", CInt (Derived.was_recently_updated f));
   ("category_encoded", CInt (Derived.category_encoded f))].

Definition enriched_cells (r : Derived.EnrichedContactRecord)
  : list (string * cell) :=
  feature_cells (Derived.features r)
  ++ [("contact_quality_score", CInt (Derived.contact_quality_score r))].

(** [df.columns] of each kind of frame. *)
Definition extracted_columns : list string :=
  ["id"; "name"; "phone"; "category"; "email"; "notes"; "created_at";
   "updated_at"].

Definition engineered_columns : list string :=
  extracted_columns ++
  ["name_length"; "name_words"; "has_title"; "is_company"; "phone_clean";
   "phone_digit_count"; "is_international"; "area_code"; "has_extension";
   "has_email"; "email_domain"; "email_is_free"; "has_notes"; "notes_length";
   "notes_word_count"; "notes_has_url"; "created_year"; "created_month";
   "created_dayofweek"; "created_hour"; "is_weekend"; "days_since_creation";
   "was_recently_updated"; "category_encoded"; "contact_quality_score"].

Definition columns (f : DataFrame) : list string :=
  match f with
  | Extracted _ => extracted_columns
  | Engineered _ => engineered_columns
  end.

Definition frame_cells (f : DataFrame) : list (list (string * cell)) :=
  match f with
  | Extracted rows => map raw_cells rows
  | Engineered rows => map enriched_cells rows
  end.

Fixpoint assoc {A : Type} (key : string) (l : list (string * A)) : option A :=
  match l with
  | [] => None
  | (k, v) :: r => if String.eqb key k then Some v else assoc key r
  end.

(** ** The analyzer object, exceptions and effects *)

Inductive exn : Type :=
| ValueError (msg : string)
| AttributeError (obj attr : string)
| KeyError (key : string)
| TypeError (msg : string).

Inductive outcome (A : Type) : Type :=
| Returned (a : A)
| Raised (e : exn).
Arguments Returned {A} a.
Arguments Raised {A} e.

(** The attributes [__init__] creates; [output_dir] and [db_config] only
    configure the collaborators and stay opaque. *)
Record ContactDataAnalyzer : Type := {
  df : option DataFrame;
  category_mapping : list (string * Z);
  le_category : LabelEncoder
}.

Definition init : ContactDataAnalyzer :=
  {| df := None; category_mapping := []; le_category := {| classes_ := None |} |}.

(** What the logger is sent, and what is written under [output_dir]. *)
Inductive log_record : Type :=
| InfoConnecting
| InfoExtracted (count : nat)
| ErrorDatabase
| InfoStartingFeatures
| InfoFeaturesCompleted
| InfoEdaSaved
| InfoExported
| WarningDatabaseEmpty
| InfoBanner
| InfoStartingPipeline
| InfoFinished
| InfoOutputs.

Inductive artifact : Type :=
| EdaPng
| AnalysisHtml
| FullCsv (header : list string) (rows : list (list (string * cell)))
| MlCsv (header : list string) (rows : list (list cell))
| MlParquet (header : list string) (rows : list (list cell))
| CategoryMappingJson (mapping : list (string * Z)).

(** The process and its surroundings: the analyzer, the log, the output
    directory and the system clock ([clock] is what [datetime.now()]
    reads). *)
Record World : Type := {
  self : ContactDataAnalyzer;
  log : list log_record;
  files : list artifact;
  clock : Z
}.

(** State that survives an exception, and the exception or the value. *)
Definition M (A : Type) : Type := World -> outcome A * World.

Definition ret {A : Type} (a : A) : M A := fun w => (Returned a, w).
Definition raise {A : Type} (e : exn) : M A := fun w => (Raised e, w).
Definition bind {A B : Type} (m : M A) (k : A -> M B) : M B :=
  fun w =>
    match m w with
    | (Returned a, w') => k a w'
    | (Raised e, w') => (Raised e, w')
    end.

Notation "x <- m ;; k" := (bind m (fun x => k))
  (at level 61, m at next level, right associativity).
Notation "m ;;; k" := (bind m (fun _ => k))
  (at level 61, right associativity).

Definition get_self : M ContactDataAnalyzer := fun w => (Returned (self w), w).
Definition put_self (a : ContactDataAnalyzer) : M unit :=
  fun w => (Returned tt,
            {| self := a; log := log w; files := files w; clock := clock w |}).
Definition logger (r : log_record) : M unit :=
  fun w => (Returned tt,
            {| self := self w; log := log w ++ [r]; files := files w;
               clock := clock w |}).
Definition write_file (a : artifact) : M unit :=
  fun w => (Returned tt,
            {| self := self w; log := log w; files := files w ++ [a];
               clock := clock w |}).
(** [datetime.now()] *)
Definition datetime_now : M Z := fun w => (Returned (clock w), w).

Definition set_df (f : DataFrame) : M unit :=
  a <- get_self ;;
  put_self {| df := Some f; category_mapping := category_mapping a;
              le_category := le_category a |}.
Definition set_category_mapping (m : list (string * Z)) : M unit :=
  a <- get_self ;;
  put_self {| df := df a; category_mapping := m;
              le_category := le_category a |}.
Definition set_le_category (le : LabelEncoder) : M unit :=
  a <- get_self ;;
  put_self {| df := df a; category_mapping := category_mapping a;
              le_category := le |}.

(** ** Attribute lookup

    [self.x] succeeds on the instance attributes [__init__] sets and on
    the methods of the class; [le.x] on a fitted encoder's [classes_] and
    on the encoder's public methods.  Any other name raises
    [AttributeError]. *)

Inductive pyobj : Type :=
| PyNone
| PyOpaque
| PyMethod (name : string)
| PySelf (a : ContactDataAnalyzer)
| PyFrame (f : DataFrame)
| PyDict (d : list (string * Z))
| PyEncoder (le : LabelEncoder)
| PyStrs (l : list string)
| PyInts (l : list Z).

Definition instance_attrs (a : ContactDataAnalyzer) : list (string * pyobj) :=
  [("output_dir", PyOpaque);
   ("db_config", PyOpaque);
   ("df", match df a with Some f => PyFrame f | None => PyNone end);
   ("category_mapping", PyDict (category_mapping a));
   ("le_category", PyEncoder (le_category a))].

Definition analyzer_methods : list string :=
  ["connect_and_extract"; "clean_and_engineer_features";
   "generate_eda_report"; "_save_html_report"; "export_datasets"; "run"].

Definition encoder_methods : list string :=
  ["fit"; "fit_transform"; "transform"; "inverse_transform";
   "get_params"; "set_params"; "set_output"].

Definition getattr (o : pyobj) (attr : string) : outcome pyobj :=
  match o with
  | PySelf a =>
      match assoc attr (instance_attrs a) with
      | Some v => Returned v
      | None =>
          if existsb (String.eqb attr) analyzer_methods
          then Returned (PyMethod attr)
          else Raised (AttributeError "ContactDataAnalyzer" attr)
      end
  | PyEncoder le =>
      match classes_ le with
      | Some l =>
          if String.eqb attr "classes_" then Returned (PyStrs l)
          else if existsb (String.eqb attr) encoder_methods
          then Returned (PyMethod attr)
          else Raised (AttributeError "LabelEncoder" attr)
      | None =>
          if existsb (String.eqb attr) encoder_methods
          then Returned (PyMethod attr)
          else Raised (AttributeError "LabelEncoder" attr)
      end
  | _ => Raised (AttributeError "object" attr)
  end.

Definition lift {A : Type} (o : outcome A) : M A := fun w => (o, w).

(** [self.attr] in a method body. *)
Definition self_attr (attr : string) : M pyobj :=
  a <- get_self ;; lift (getattr (PySelf a) attr).

(** [dict] assignment: a repeated key keeps its place and takes the new
    value. *)
Fixpoint dict_set (k : string) (v : Z) (d : list (string * Z))
  : list (string * Z) :=
  match d with
  | [] => [(k, v)]
  | (k', v') :: r =>
      if String.eqb k k' then (k, v) :: r else (k', v') :: dict_set k v r
  end.

Definition dict_of (pairs : list (string * Z)) : list (string * Z) :=
  fold_left (fun d kv => dict_set (fst kv) (snd kv) d) pairs [].

(** [dict(zip(keys, values))] *)
Definition dict_zip (keys values : pyobj) : outcome (list (string * Z)) :=
  match keys, values with
  | PyStrs ks, PyInts vs => Returned (dict_of (combine ks vs))
  | _, _ => Raised (TypeError "zip")
  end.

(** ** Methods of [ContactDataAnalyzer] *)

(** [connect_and_extract]; [db] is what the query returns, [None] when the
    connection or the query fails. *)
Definition connect_and_extract (db : option (list Raw.ContactRecord))
  : M bool :=
  logger InfoConnecting ;;;
  match db with
  | Some rows =>
      set_df (Extracted rows) ;;;
      logger (InfoExtracted (List.length rows)) ;;;
      ret true
  | None => logger ErrorDatabase ;;; ret false
  end.

(** Lines 170-172: the arguments of [zip] are evaluated left to right. *)
Definition build_category_mapping : M (list (string * Z)) :=
  le_cat <- self_attr "le_category" ;;
  classes <- lift (getattr le_cat "classes_") ;;
  le <- self_attr "le" ;;
  indices <- lift (getattr le "classes_indices_") ;;
  lift (dict_zip classes indices).

(** Lines 97-169: the local frame [df], from a copy of [self.df].  The
    clock is read at line 161; fitting mutates [self.le_category]. *)
Definition engineer_features (rows : list Raw.ContactRecord)
  : M (list Derived.FeatureRow) :=
  now <- datetime_now ;;
  let fitted :=
    fit_transform (map (fun r => category (Raw.category r)) rows) in
  set_le_category (fst fitted) ;;;
  ret (engineer now rows (snd fitted)).

(** [clean_and_engineer_features] *)
Definition clean_and_engineer_features : M unit :=
  a <- get_self ;;
  match df a with
  | None => raise (ValueError "No data available for feature engineering.")
  | Some frame =>
      if frame_empty frame
      then raise (ValueError "No data available for feature engineering.")
      else
        logger InfoStartingFeatures ;;;
        local <- engineer_features (base_rows frame) ;;
        mapping <- build_category_mapping ;;
        set_category_mapping mapping ;;;
        set_df (Engineered (map with_quality_score local)) ;;;
        logger InfoFeaturesCompleted
  end.

(** Columns the report reads, in the order it reads them. *)
Definition report_columns : list string :=
  ["category"; "contact_quality_score"; "is_international"; "email_is_free";
   "created_at"; "name_length"; "phone_digit_count"; "has_email"; "has_notes";
   "notes_length"; "category_encoded"; "created_hour"].

Definition missing (cols have : list string) : list string :=
  filter (fun c => negb (existsb (String.eqb c) have)) cols.

(** [generate_eda_report]: rendering is the collaborator's; what is kept is
    the guard, the columns read and the files written. *)
Definition generate_eda_report : M unit :=
  a <- get_self ;;
  match df a with
  | None => ret tt
  | Some frame =>
      match missing report_columns (columns frame) with
      | k :: _ => raise (KeyError k)
      | [] =>
          write_file EdaPng ;;;
          logger InfoEdaSaved ;;;
          write_file AnalysisHtml
      end
  end.

Definition ml_features : list string :=
  ["name_length";
   "name_words";
   "has_title";
   "is_company";
   "phone_digit_count";
   "is_international";
   "has_extension";
   "has_email";
   "email_is_free";
   "has_notes";
   "notes_length";
   "notes_word_count";
   "notes_has_url";
   "created_month";
   "created_dayofweek";
   "created_hour";
   "is_weekend";
   "contact_quality_score";
   "category_encoded"].

Definition cell_of (cells : list (string * cell)) (col : string) : cell :=
  match assoc col cells with Some c => c | None => CNull end.

(** [df[cols]]: the named columns in the order of [cols]. *)
Definition select (cols : list string) (f : DataFrame)
  : outcome (list string * list (list cell)) :=
  match missing cols (columns f) with
  | k :: _ => Raised (KeyError k)
  | [] => Returned (cols, map (fun cells => map (cell_of cells) cols)
                              (frame_cells f))
  end.

(** [export_datasets] *)
Definition export_datasets : M unit :=
  a <- get_self ;;
  match df a with
  | None => ret tt
  | Some frame =>
      write_file (FullCsv (columns frame) (frame_cells frame)) ;;;
      ml_df <- lift (select ml_features frame) ;;
      write_file (MlCsv (fst ml_df) (snd ml_df)) ;;;
      write_file (MlParquet (fst ml_df) (snd ml_df)) ;;;
      write_file (CategoryMappingJson (category_mapping a)) ;;;
      logger InfoExported
  end.

(** [run] *)
Definition run (db : option (list Raw.ContactRecord)) : M unit :=
  logger InfoBanner ;;;
  logger InfoStartingPipeline ;;;
  logger InfoBanner ;;;
  ok <- connect_and_extract db ;;
  if negb ok then ret tt
  else
    a <- get_self ;;
    match df a with
    | None => raise (AttributeError "NoneType" "empty")
    | Some frame =>
        if frame_empty frame
        then logger WarningDatabaseEmpty
        else
          clean_and_engineer_features ;;;
          generate_eda_report ;;;
          export_datasets ;;;
          logger InfoBanner ;;;
          logger InfoFinished ;;;
          logger InfoOutputs ;;;
          logger InfoBanner
    end.

(** A process that has just built its analyzer, at clock reading [now]. *)
Definition fresh (now : Z) : World :=
  {| self := init; log := []; files := []; clock := now |}.

(** The world in which [clean_and_engineer_features] stops on a frame with
    rows: the start of the work is logged and the encoder is fitted. *)
Definition after_failed_engineering (w : World) (frame : DataFrame) : World :=
  {| self :=
       {| df := df (self w);
          category_mapping := category_mapping (self w);
          le_category :=
            fst (fit_transform
                   (map (fun r => category (Raw.category r))
                        (base_rows frame))) |};
     log := log w ++ [InfoStartingFeatures];
     files := files w;
     clock := clock w |}.

(** ** Histories of calls

    What a program can do with an analyzer: call its methods, in any order,
    while the clock moves. *)

Inductive call : Type :=
| Connect (db : option (list Raw.ContactRecord))
| Clean
| Report
| Export
| Run (db : option (list Raw.ContactRecord))
| Tick (now : Z).

(** The world after a call, whether it returned or raised. *)
Definition perform (w : World) (c : call) : World :=
  match c with
  | Connect db => snd (connect_and_extract db w)
  | Clean => snd (clean_and_engineer_features w)
  | Report => snd (generate_eda_report w)
  | Export => snd (export_datasets w)
  | Run db => snd (run db w)
  | Tick now =>
      {| self := self w; log := log w; files := files w; clock := now |}
  end.

Definition history (cs : list call) (w : World) : World :=
  fold_left perform cs w.

(** The frame is the extracted one, if any, and the mapping is empty. *)
Definition never_engineered (a : ContactDataAnalyzer) : Prop :=
  category_mapping a = [] /\
  match df a with
  | Some (Engineered _) => False
  | _ => True
  end.

(** ** Predicates on text *)

(** Only blanks. *)
Definition blank (s : string) : Prop :=
  forall c, In c (list_ascii_of_string s) -> Text.is_space c = true.


(** Strictly increasing in the order of [str] comparison. *)
Definition increasing (l : list string) : Prop :=
  StronglySorted (fun a b => String.ltb a b = true) l.

(** ** Sample rows *)

Definition jane : Raw.ContactRecord :=
  {| Raw.id := 1;
     Raw.name := " Dr. Jane Doe ";
     Raw.phone := "+1 (415) 555-0199";
     Raw.category := None;
     Raw.email := Some "jane@gmail.com";
     Raw.notes := Some "Met at conf, see http://x.co";
     Raw.created_at := Instant 1704448800000000000;
     Raw.updated_at := Instant 1704621600000000000 |}.

(** No email, no notes, a creation time that does not parse. *)
Definition bare : Raw.ContactRecord :=
  {| Raw.id := 2;
     Raw.name := "Drive In";
     Raw.phone := "555-1234";
     Raw.category := Some "Work";
     Raw.email := None;
     Raw.notes := None;
     Raw.created_at := Unparseable "yesterday";
     Raw.updated_at := Instant 1704621600000000000 |}.

(** Created on a known instant, never updated. *)
Definition untouched : Raw.ContactRecord :=
  {| Raw.id := 3;
     Raw.name := "Acme Inc";
     Raw.phone := "5551234567";
     Raw.category := Some " Work ";
     Raw.email := Some "sales@acme.example";
     Raw.notes := None;
     Raw.created_at := Instant 1704448800000000000;
     Raw.updated_at := NullTime |}.

(** A world whose analyzer holds [frame] after extraction. *)
Definition holding (frame : DataFrame) (now : Z) : World :=
  {| self := {| df := Some frame; category_mapping := [];
                le_category := {| classes_ := None |} |};
     log := []; files := []; clock := now |}.

(** * Properties *)

(** ** The model on known values *)

Example civil_of_days_known :
  map Time.civil_of_days [0; -1; 11016; 11017; 19782; 19783; 20088]
  = [(1970, 1); (1969, 12); (2000, 2); (2000, 3); (2024, 2); (2024, 3);
     (2024, 12)].
Proof. vm_compute. reflexivity. Qed.

(** The row " Dr. Jane Doe ", created on Friday 2024-01-05 at 10:00 and
    updated two days later, engineered on 2024-02-01. *)
Example jane_features :
  let f := engineer_row 1706745600000000000 jane 0 in
  Derived.name f = "Dr. Jane Doe" /\ Derived.name_length f = 12 /\
  Derived.name_words f = 3 /\ Derived.has_title f = 1 /\ Derived.is_company f = 0 /\
  Derived.phone_clean f = "14155550199" /\ Derived.phone_digit_count f = 11 /\
  Derived.is_international f = 1 /\ Derived.area_code f = Some "141" /\
  Derived.has_extension f = 0 /\ Derived.has_email f = 1 /\
  Derived.email_domain f = Some "gmail.com" /\ Derived.email_is_free f = 1 /\
  Derived.has_notes f = 1 /\ Derived.notes_length f = 28 /\
  Derived.notes_word_count f = 5 /\ Derived.notes_has_url f = 1 /\
  Derived.created_year f = Some 2024 /\ Derived.created_month f = Some 1 /\
  Derived.created_dayofweek f = Some 4 /\ Derived.created_hour f = Some 10 /\
  Derived.is_weekend f = 0 /\ Derived.days_since_creation f = Some 26 /\
  Derived.was_recently_updated f = 1 /\ Derived.category f = "Other".
Proof. vm_compute. repeat split. Qed.

Example bare_features :
  let f := engineer_row 0 bare 0 in
  Derived.phone_digit_count f = 7 /\ Derived.is_international f = 0 /\
  Derived.area_code f = None /\ Derived.has_title f = 1 /\
  map is_company ["Acme Inc"; "Acme Co."; "Acme Co.x"; "Incorporated"]
  = [1; 0; 1; 0].
Proof. vm_compute. repeat split. Qed.

(** ** Email *)

(** C9: a row whose email is null has [has_email = 0], a null
    [email_domain] and [email_is_free = 0]. *)
Theorem null_email_features (now : Z) (r : Raw.ContactRecord) (code : Z) :
  Raw.email r = None ->
  let f := engineer_row now r code in
  Derived.has_email f = 0 /\ Derived.email_domain f = None /\ Derived.email_is_free f = 0.
Proof.
  intros H f. subst f. unfold engineer_row. cbn [Derived.has_email Derived.email_domain Derived.email_is_free].
  rewrite H. repeat split.
Qed.

Lemma null_email_features_witness :
  Raw.email bare = None /\
  Derived.has_email (engineer_row 0 bare 0) = 0 /\
  Derived.email_domain (engineer_row 0 bare 0) = None /\
  Derived.email_is_free (engineer_row 0 bare 0) = 0.
Proof.
  split; [reflexivity | apply (null_email_features 0 bare 0); reflexivity].
Defined.

(** ** Composite quality score *)

(** C3: the last term of the score is the bitwise complement of the 0/1 flag
    [email_is_free], that is [-1 - email_is_free]: the score is
    [3*has_email + 2*has_notes + 2*(notes_length > 50) - 1 - email_is_free],
    and a row with neither email nor notes scores -1, the term for the
    free-mail flag contributing -1 and not 1. *)
Theorem contact_quality_score_complements_bits :
  (forall he hn nl free : Z,
     contact_quality_score he hn nl free
     = 3 * he + 2 * hn + 2 * Z.b2z (50 <? nl) + (- 1 - free)) /\
  Derived.has_email (engineer_row 0 bare 0) = 0 /\
  Derived.email_is_free (engineer_row 0 bare 0) = 0 /\
  Derived.contact_quality_score (with_quality_score (engineer_row 0 bare 0)) = - 1 /\
  Derived.contact_quality_score (with_quality_score (engineer_row 0 jane 0)) = 3.
Proof.
  split.
  - intros he hn nl free. unfold contact_quality_score, invert_int, astype_int.
    unfold Z.lnot, Z.pred. lia.
  - repeat split; vm_compute; reflexivity.
Qed.

(** ** Time features *)

Lemma was_recently_updated_absent_left (c : option Z) :
  was_recently_updated None c = 0.
Proof. reflexivity. Qed.

Lemma was_recently_updated_absent_right (u : option Z) :
  was_recently_updated u None = 0.
Proof. destruct u; reflexivity. Qed.

Lemma was_recently_updated_present (u c : Z) :
  was_recently_updated (Some u) (Some c)
  = if Time.one_day <? u - c then 1 else 0.
Proof.
  unfold was_recently_updated, gt_timedelta, sub_datetime, astype_int.
  destruct (Time.one_day <? u - c); reflexivity.
Qed.

(** C6 (what fails): a row created on a known instant and never updated has
    [was_recently_updated = 0], an integer cell and not a null one. *)
Lemma was_recently_updated_absent_not_null :
  to_datetime (Raw.updated_at untouched) = None /\
  cell_of (feature_cells (engineer_row 0 untouched 0)) "was_recently_updated"
  = CInt 0 /\
  cell_of (feature_cells (engineer_row 0 untouched 0)) "was_recently_updated"
  <> CNull.
Proof.
  repeat split; try reflexivity. vm_compute. discriminate.
Qed.

(** C6 (amended): with both instants present [was_recently_updated] is 1
    exactly when [updated_at - created_at] exceeds one day and 0 otherwise;
    when either instant is absent it is 0. *)
Theorem was_recently_updated_cases :
  (forall now r code,
     Derived.was_recently_updated (engineer_row now r code)
     = was_recently_updated (to_datetime (Raw.updated_at r))
         (to_datetime (Raw.created_at r))) /\
  (forall u c : Z,
     (was_recently_updated (Some u) (Some c) = 1 <-> Time.one_day < u - c) /\
     (was_recently_updated (Some u) (Some c) = 0 <-> u - c <= Time.one_day)) /\
  (forall c : option Z, was_recently_updated None c = 0) /\
  (forall u : option Z, was_recently_updated u None = 0).
Proof.
  split; [reflexivity | split; [| split]].
  - intros u c. rewrite was_recently_updated_present.
    destruct (Z.ltb_spec Time.one_day (u - c)); split; split;
      intros; try lia; try reflexivity; try discriminate.
  - apply was_recently_updated_absent_left.
  - apply was_recently_updated_absent_right.
Qed.

(** The frame keeps one row per input row, in the input's order. *)
Lemma fit_transform_length (col : list string) :
  List.length (snd (fit_transform col)) = List.length col.
Proof. unfold fit_transform. cbn [snd]. apply length_map. Qed.

Lemma engineer_ids (now : Z) (rows : list Raw.ContactRecord) :
  forall codes : list Z,
    List.length codes = List.length rows ->
    map Derived.id (engineer now rows codes) = map Raw.id rows.
Proof.
  unfold engineer.
  induction rows as [| r rows IH]; intros [| c codes] Hlen;
    cbn in *; try reflexivity; try discriminate.
  f_equal. apply IH. now injection Hlen.
Qed.

Lemma engineer_keeps_rows (now : Z) (rows : list Raw.ContactRecord) :
  map Derived.id
    (engineer now rows
       (snd (fit_transform (map (fun r => category (Raw.category r)) rows))))
  = map Raw.id rows.
Proof.
  apply engineer_ids. rewrite fit_transform_length. apply length_map.
Qed.

(** C5 (what fails): for a row whose [created_at] does not parse,
    [is_weekend] and [was_recently_updated] are the integer 0, not null. *)
Lemma unparsed_created_at_flags_not_null :
  to_datetime (Raw.created_at bare) = None /\
  cell_of (feature_cells (engineer_row 0 bare 0)) "is_weekend" <> CNull /\
  cell_of (feature_cells (engineer_row 0 bare 0)) "was_recently_updated"
  <> CNull.
Proof.
  repeat split; try reflexivity; vm_compute; discriminate.
Qed.

(** C5 (amended): for a row whose [created_at] does not parse, [created_at],
    [created_year], [created_month], [created_dayofweek], [created_hour] and
    [days_since_creation] are null while [is_weekend] and
    [was_recently_updated] are 0; for a row whose [updated_at] does not
    parse, [updated_at] is null and [was_recently_updated] is 0; the
    engineered frame keeps every row of the input, in order. *)
Theorem unparsed_timestamp_features
  (now : Z) (r r' : Raw.ContactRecord) (code code' : Z) :
  to_datetime (Raw.created_at r) = None ->
  to_datetime (Raw.updated_at r') = None ->
  let f := engineer_row now r code in
  let f' := engineer_row now r' code' in
  (Derived.created_at f = None /\
   Derived.created_year f = None /\
   Derived.created_month f = None /\
   Derived.created_dayofweek f = None /\
   Derived.created_hour f = None /\
   Derived.days_since_creation f = None /\
   Derived.is_weekend f = 0 /\
   Derived.was_recently_updated f = 0) /\
  (Derived.updated_at f' = None /\ Derived.was_recently_updated f' = 0) /\
  (forall rows,
     map Derived.id
       (engineer now rows
          (snd (fit_transform
                  (map (fun x => category (Raw.category x)) rows))))
     = map Raw.id rows).
Proof.
  intros Hc Hu f f'. subst f f'. unfold engineer_row. cbn [Derived.created_at
    Derived.created_year Derived.created_month Derived.created_dayofweek Derived.created_hour
    Derived.days_since_creation Derived.is_weekend Derived.was_recently_updated
    Derived.updated_at].
  rewrite Hc, Hu. split; [| split].
  - repeat split. apply was_recently_updated_absent_right.
  - split; [reflexivity | apply was_recently_updated_absent_left].
  - intros rows. apply engineer_keeps_rows.
Qed.

Lemma unparsed_timestamp_features_witness :
  Derived.created_year (engineer_row 0 bare 0) = None /\
  Derived.is_weekend (engineer_row 0 bare 0) = 0 /\
  Derived.was_recently_updated (engineer_row 0 untouched 1) = 0.
Proof.
  pose proof (unparsed_timestamp_features 0 bare untouched 0 1
                eq_refl eq_refl) as H.
  cbv zeta in H. destruct H as [Hc [Hu _]].
  split; [apply Hc | split; [apply Hc | apply Hu]].
Defined.

(** ** Attribute lookup on the analyzer *)

Lemma getattr_self_le (a : ContactDataAnalyzer) :
  getattr (PySelf a) "le" = Raised (AttributeError "ContactDataAnalyzer" "le").
Proof. reflexivity. Qed.

Lemma getattr_self_le_category (a : ContactDataAnalyzer) :
  getattr (PySelf a) "le_category" = Returned (PyEncoder (le_category a)).
Proof. reflexivity. Qed.

Lemma getattr_fitted_classes (l : list string) :
  getattr (PyEncoder {| classes_ := Some l |}) "classes_" = Returned (PyStrs l).
Proof. reflexivity. Qed.

(** Once the encoder is fitted, building the mapping stops at [self.le]
    and leaves the world as it was. *)
Lemma build_category_mapping_raises (w : World) (l : list string) :
  le_category (self w) = {| classes_ := Some l |} ->
  build_category_mapping w
  = (Raised (AttributeError "ContactDataAnalyzer" "le"), w).
Proof.
  intros H. unfold build_category_mapping, self_attr, bind, get_self, lift.
  rewrite getattr_self_le_category, H, getattr_fitted_classes.
  rewrite getattr_self_le. reflexivity.
Qed.

Lemma clean_and_engineer_features_nonempty (w : World) (frame : DataFrame) :
  df (self w) = Some frame ->
  frame_empty frame = false ->
  clean_and_engineer_features w
  = (Raised (AttributeError "ContactDataAnalyzer" "le"),
     after_failed_engineering w frame).
Proof.
  intros Hdf Hne.
  unfold clean_and_engineer_features, bind at 1. unfold get_self at 1.
  cbn beta iota. rewrite Hdf, Hne.
  unfold bind at 1. unfold logger at 1. cbn beta iota.
  unfold engineer_features, bind at 1. unfold bind at 1.
  unfold datetime_now at 1. cbn beta iota.
  unfold bind at 1. unfold set_le_category, bind at 1, get_self, put_self.
  cbn beta iota. unfold ret at 1. cbn beta iota.
  unfold bind at 1.
  rewrite (build_category_mapping_raises _
             (np_unique (map (fun r => category (Raw.category r))
                             (base_rows frame)))) by reflexivity.
  reflexivity.
Qed.

(** C1: on the one-row frame whose category is "Work" the labels of the
    batch are ["Work"], so the mapping asked for is {"Work": 0}; the method
    raises [AttributeError] before assigning [self.category_mapping], which
    stays empty, and the frame is not replaced. *)
Theorem category_mapping_not_built :
  let w := holding (Extracted [untouched]) 0 in
  np_unique (map (fun r => category (Raw.category r)) [untouched]) = ["Work"] /\
  dict_of (combine ["Work"] [0]) = [("Work", 0)] /\
  fst (clean_and_engineer_features w)
  = Raised (AttributeError "ContactDataAnalyzer" "le") /\
  category_mapping (self (snd (clean_and_engineer_features w))) = [] /\
  df (self (snd (clean_and_engineer_features w))) = Some (Extracted [untouched]).
Proof.
  cbv zeta. repeat split; vm_compute; reflexivity.
Qed.

(** ** Empty input *)

Lemma clean_and_engineer_features_no_frame (w : World) :
  df (self w) = None ->
  clean_and_engineer_features w
  = (Raised (ValueError "No data available for feature engineering."), w).
Proof.
  intros H. unfold clean_and_engineer_features, bind, get_self.
  rewrite H. reflexivity.
Qed.

Lemma clean_and_engineer_features_empty (w : World) (frame : DataFrame) :
  df (self w) = Some frame ->
  frame_empty frame = true ->
  clean_and_engineer_features w
  = (Raised (ValueError "No data available for feature engineering."), w).
Proof.
  intros H He. unfold clean_and_engineer_features, bind, get_self.
  rewrite H, He. reflexivity.
Qed.

(** C4 (what fails): on an empty frame the method raises [ValueError]. *)
Lemma empty_frame_raises :
  frame_empty (Extracted []) = true /\
  fst (clean_and_engineer_features (holding (Extracted []) 0))
  = Raised (ValueError "No data available for feature engineering.") /\
  fst (clean_and_engineer_features (holding (Extracted []) 0)) <> Returned tt.
Proof.
  repeat split; try reflexivity. vm_compute. discriminate.
Qed.

(** C4 (amended): on an empty frame [clean_and_engineer_features] raises
    [ValueError] and changes nothing, so the frame stays empty and the
    mapping stays as it was; it is [run] that treats empty input as no
    error: it logs a warning and returns without calling the method, with
    an empty frame, an empty mapping and no file written. *)
Theorem empty_input_raises_ValueError (w : World) (frame : DataFrame) :
  df (self w) = Some frame ->
  frame_empty frame = true ->
  clean_and_engineer_features w
  = (Raised (ValueError "No data available for feature engineering."), w) /\
  (forall now,
     run (Some []) (fresh now)
     = (Returned tt,
        {| self := {| df := Some (Extracted []); category_mapping := [];
                      le_category := {| classes_ := None |} |};
           log := [InfoBanner; InfoStartingPipeline; InfoBanner;
                   InfoConnecting; InfoExtracted 0; WarningDatabaseEmpty];
           files := [];
           clock := now |})).
Proof.
  intros H He. split.
  - now apply clean_and_engineer_features_empty with frame.
  - intros now. reflexivity.
Qed.

Lemma empty_input_raises_ValueError_witness :
  clean_and_engineer_features (holding (Extracted []) 0)
  = (Raised (ValueError "No data available for feature engineering."),
     holding (Extracted []) 0).
Proof.
  apply (empty_input_raises_ValueError (holding (Extracted []) 0)
           (Extracted []) eq_refl eq_refl).
Defined.

(** ** The clock *)

Lemma engineer_features_value (rows : list Raw.ContactRecord) (w : World) :
  fst (engineer_features rows w)
  = Returned
      (engineer (clock w) rows
         (snd (fit_transform
                 (map (fun r => category (Raw.category r)) rows)))).
Proof. reflexivity. Qed.

Lemma cells_but_days_since_creation
  (now now' : Z) (r : Raw.ContactRecord) (code : Z) (col : string) :
  col <> "days_since_creation" ->
  cell_of (feature_cells (engineer_row now r code)) col
  = cell_of (feature_cells (engineer_row now' r code)) col.
Proof.
  intros Hcol. unfold cell_of, feature_cells. cbn [assoc].
  repeat match goal with
         | |- context [String.eqb col ?k] =>
             destruct (String.eqb_spec col k);
             [ first [ reflexivity | contradiction ] | ]
         end.
  reflexivity.
Qed.

(** C7 (what fails): the method takes no instant; the same frame engineered
    under two readings of the system clock has different
    [days_since_creation]. *)
Lemma days_since_creation_follows_system_clock :
  self (holding (Extracted [jane]) 1704448800000000000)
  = self (holding (Extracted [jane]) 1706745600000000000) /\
  fst (engineer_features [jane] (holding (Extracted [jane]) 1704448800000000000))
  <> fst (engineer_features [jane]
            (holding (Extracted [jane]) 1706745600000000000)) /\
  map Derived.days_since_creation (engineer 1704448800000000000 [jane] [0])
  = [Some 0] /\
  map Derived.days_since_creation (engineer 1706745600000000000 [jane] [0])
  = [Some 26].
Proof.
  split; [reflexivity | split; [| split; reflexivity]].
  vm_compute. discriminate.
Qed.

(** C7 (amended): two runs on the same rows under the same reading of the
    system clock build the same frame; the instant is the one
    [datetime.now()] reads, [days_since_creation] is the whole days from
    [created_at] to it, and no other column depends on it. *)
Theorem engineer_features_same_clock
  (rows : list Raw.ContactRecord) (w1 w2 : World) :
  clock w1 = clock w2 ->
  fst (engineer_features rows w1) = fst (engineer_features rows w2) /\
  fst (engineer_features rows w1)
  = Returned
      (engineer (clock w1) rows
         (snd (fit_transform
                 (map (fun r => category (Raw.category r)) rows)))) /\
  (forall r code,
     Derived.days_since_creation (engineer_row (clock w1) r code)
     = option_map (fun created => Time.days_of (clock w1 - created))
         (to_datetime (Raw.created_at r))) /\
  (forall now now' r code col,
     col = "days_since_creation" \/
     cell_of (feature_cells (engineer_row now r code)) col
     = cell_of (feature_cells (engineer_row now' r code)) col).
Proof.
  intros Hclock. rewrite !engineer_features_value, Hclock.
  split; [reflexivity | split; [reflexivity | split]].
  - intros r code. cbn [engineer_row Derived.days_since_creation].
    unfold days_since_creation, sub_datetime.
    destruct (to_datetime (Raw.created_at r)); reflexivity.
  - intros now now' r code col.
    destruct (String.eqb_spec col "days_since_creation") as [-> | Hne].
    + left. reflexivity.
    + right. now apply cells_but_days_since_creation.
Qed.

Lemma engineer_features_same_clock_witness :
  fst (engineer_features [jane; bare] (holding (Extracted [jane; bare]) 5))
  = fst (engineer_features [jane; bare] (fresh 5)).
Proof.
  apply (engineer_features_same_clock [jane; bare]
           (holding (Extracted [jane; bare]) 5) (fresh 5) eq_refl).
Defined.

(** ** The ML-ready export *)

(** The ML columns in the order the feature engineering assigns them. *)
Lemma ml_features_in_engineering_order :
  filter (fun c => existsb (String.eqb c) ml_features) engineered_columns
  = (firstn 17 ml_features
     ++ ["category_encoded"; "contact_quality_score"])%list.
Proof. vm_compute. reflexivity. Qed.

Lemma select_ml_features_engineered (rows : list Derived.EnrichedContactRecord) :
  select ml_features (Engineered rows)
  = Returned
      (ml_features,
       map (fun cells => map (cell_of cells) ml_features)
           (map enriched_cells rows)).
Proof. reflexivity. Qed.

(** C10 (what fails): the ML subset does not follow the order of the
    feature list to its end: there [category_encoded] comes before
    [contact_quality_score], the last column engineered, and in the export
    [category_encoded] is last. *)
Lemma ml_features_order_differs :
  filter (fun c => existsb (String.eqb c) ml_features) engineered_columns
  <> ml_features /\
  last engineered_columns "" = "contact_quality_score" /\
  last ml_features "" <> "contact_quality_score".
Proof.
  split; [| split]; vm_compute; (reflexivity || discriminate).
Qed.

(** C10 (amended): the ML-ready dataset has exactly the 19 columns of
    [ml_features], all distinct and all columns of the engineered frame;
    the first 17 are in the order of the feature list (name, phone, email,
    notes and time features), then comes [contact_quality_score] and
    last [category_encoded]; the export selects them in that order, one
    row of 19 cells per row of the frame. *)
Theorem ml_features_columns :
  List.length ml_features = 19%nat /\
  NoDup ml_features /\
  missing ml_features engineered_columns = [] /\
  firstn 17 ml_features
  = firstn 17
      (filter (fun c => existsb (String.eqb c) ml_features)
         engineered_columns) /\
  skipn 17 ml_features = ["contact_quality_score"; "category_encoded"] /\
  (forall rows,
     exists data,
       select ml_features (Engineered rows) = Returned (ml_features, data) /\
       List.length data = List.length rows /\
       Forall (fun cells => List.length cells = 19%nat) data) /\
  (forall rows mapping le lg fs now,
     exists data,
       export_datasets
         {| self := {| df := Some (Engineered rows);
                       category_mapping := mapping; le_category := le |};
            log := lg; files := fs; clock := now |}
       = (Returned tt,
          {| self := {| df := Some (Engineered rows);
                        category_mapping := mapping; le_category := le |};
             log := lg ++ [InfoExported];
             files :=
               (((fs ++ [FullCsv engineered_columns
                           (map enriched_cells rows)])
                 ++ [MlCsv ml_features data])
                ++ [MlParquet ml_features data])
               ++ [CategoryMappingJson mapping];
             clock := now |})).
Proof.
  split; [reflexivity |].
  split.
  { unfold ml_features.
    repeat (constructor; [cbn; intuition discriminate |]). constructor. }
  split; [vm_compute; reflexivity |].
  split; [vm_compute; reflexivity |].
  split; [reflexivity |].
  split.
  - intros rows. eexists. split; [apply select_ml_features_engineered |].
    split.
    + now rewrite !length_map.
    + apply Forall_forall. intros cells Hin.
      apply in_map_iff in Hin. destruct Hin as [x [<- _]].
      now rewrite length_map.
  - intros rows mapping le lg fs now. eexists. reflexivity.
Qed.

(** ** No history of calls engineers the frame *)

Lemma perform_never_engineered (w : World) (c : call) :
  never_engineered (self w) -> never_engineered (self (perform w c)).
Proof.
  destruct w as [[d m le] lg fs ck]. unfold never_engineered. cbn [self df category_mapping].
  intros [Hm Hd]. subst m.
  destruct c as [db | | | | db | now]; cbn [perform].
  - destruct db as [rows |]; cbn; auto.
  - destruct d as [[rows | rows] |]; [| contradiction |].
    + destruct rows as [| r rows]; cbn; auto.
    + cbn. auto.
  - destruct d as [[rows | rows] |]; [| contradiction |]; cbn; auto.
  - destruct d as [[rows | rows] |]; [| contradiction |]; cbn; auto.
  - destruct db as [[| r rows] |]; cbn; auto.
  - cbn. auto.
Qed.

Lemma history_never_engineered (cs : list call) :
  forall w, never_engineered (self w) ->
            never_engineered (self (history cs w)).
Proof.
  unfold history. induction cs as [| c cs IH]; intros w Hw; cbn; [exact Hw |].
  apply IH. now apply perform_never_engineered.
Qed.

(** C2: on a frame with rows [clean_and_engineer_features] raises
    [AttributeError] for the attribute [le] of the analyzer, which no
    attribute or method defines ([le_category] is the one [__init__]
    creates); [self.df] still holds the frame it was given and
    [self.category_mapping] is what it was.  So after any calls on a newly
    built analyzer the frame is not the engineered one and the mapping is
    the empty dict of [__init__]. *)
Theorem clean_and_engineer_features_raises_AttributeError
  (w : World) (frame : DataFrame) :
  df (self w) = Some frame ->
  frame_empty frame = false ->
  (exists w',
     clean_and_engineer_features w
     = (Raised (AttributeError "ContactDataAnalyzer" "le"), w') /\
     getattr (PySelf (self w')) "le"
     = Raised (AttributeError "ContactDataAnalyzer" "le") /\
     getattr (PySelf (self w')) "le_category"
     = Returned (PyEncoder (le_category (self w'))) /\
     df (self w') = Some frame /\
     category_mapping (self w') = category_mapping (self w)) /\
  (forall cs now, never_engineered (self (history cs (fresh now)))).
Proof.
  intros Hdf Hne. split.
  - exists (after_failed_engineering w frame).
    split; [now apply clean_and_engineer_features_nonempty |].
    repeat split. exact Hdf.
  - intros cs now. apply history_never_engineered. split; exact I || reflexivity.
Qed.

Lemma clean_and_engineer_features_raises_AttributeError_witness :
  exists w',
    clean_and_engineer_features (holding (Extracted [jane; bare]) 0)
    = (Raised (AttributeError "ContactDataAnalyzer" "le"), w') /\
    df (self w') = Some (Extracted [jane; bare]) /\
    category_mapping (self w') = [].
Proof.
  destruct (clean_and_engineer_features_raises_AttributeError
              (holding (Extracted [jane; bare]) 0) (Extracted [jane; bare])
              eq_refl eq_refl) as [[w' [H1 [_ [_ [H2 H3]]]]] _].
  exists w'. split; [exact H1 | split; [exact H2 | exact H3]].
Defined.

(** ** Matching *)

Section Matching.

Variable ic : bool.

Lemma rmatch_word (w : string) :
  forall prev s k,
    Re.rmatch ic (Re.word w) prev s k
    = match Re.strip_word ic w prev s with
      | Some (p, rest) => k p rest
      | None => false
      end.
Proof.
  induction w as [| c w IH]; intros prev s k; cbn; [reflexivity |].
  destruct s as [| d s]; [reflexivity |].
  destruct (Re.chr_match ic c d); [apply IH | reflexivity].
Qed.

Lemma rmatch_any_of (ws : list string) :
  forall prev s k,
    Re.rmatch ic (Re.any_of ws) prev s k
    = existsb (fun w => Re.rmatch ic (Re.word w) prev s k) ws.
Proof.
  induction ws as [| w ws IH]; intros prev s k; cbn; [reflexivity |].
  now rewrite IH.
Qed.

(** Whether a word is stripped does not depend on the character before. *)
Lemma strip_word_prev (w : string) :
  forall prev prev' s,
    match Re.strip_word ic w prev s with Some _ => true | None => false end
    = match Re.strip_word ic w prev' s with Some _ => true | None => false end.
Proof.
  destruct w as [| c w]; intros prev prev' s; cbn; [reflexivity |].
  destruct s as [| d s]; [reflexivity |].
  destruct (Re.chr_match ic c d); reflexivity.
Qed.

(** A search succeeds exactly when the pattern matches after some prefix. *)
Lemma search_from_split (r : Re.regex) (s : string) :
  forall prev,
    Re.search_from ic r prev s = true <->
    exists pre post,
      s = pre ++ post /\
      Re.match_here ic r
        (match Text.last_char pre with Some c => Some c | None => prev end)
        post = true.
Proof.
  induction s as [| c s IH]; intros prev; cbn [Re.search_from].
  - rewrite orb_false_r. split.
    + intros H. exists EmptyString, EmptyString. split; [reflexivity | exact H].
    + intros [pre [post [Hs H]]].
      destruct pre; [| discriminate]. cbn in Hs. subst post. exact H.
  - rewrite orb_true_iff, IH. split.
    + intros [H | [pre [post [Hs H]]]].
      * exists EmptyString, (String c s). split; [reflexivity | exact H].
      * exists (String c pre), post. split; [cbn; now rewrite Hs |].
        cbn [Text.last_char]. destruct (Text.last_char pre); exact H.
    + intros [pre [post [Hs H]]]. destruct pre as [| c' pre].
      * left. cbn in Hs. subst post. exact H.
      * right. cbn in Hs. injection Hs as <- ->.
        exists pre, post. split; [reflexivity |].
        cbn [Text.last_char] in H. destruct (Text.last_char pre); exact H.
Qed.

End Matching.

(** ** Titles *)

Lemma starts_with_ignorecase (w : string) :
  forall s,
    Re.starts_with true w s = true <->
    exists tok post, s = tok ++ post /\ Text.lower tok = Text.lower w.
Proof.
  unfold Re.starts_with.
  induction w as [| c w IH]; intros s; cbn [Re.strip_word].
  - split; [intros _ | reflexivity].
    exists EmptyString, s. split; reflexivity.
  - destruct s as [| d s].
    + split; [discriminate |]. intros [tok [post [Hs Hl]]].
      destruct tok; cbn in Hl; discriminate.
    + unfold Re.chr_match.
      destruct (Ascii.eqb_spec (Text.lower_char c) (Text.lower_char d)) as [E | E].
      * rewrite (strip_word_prev true w (Some d) None), IH. split.
        -- intros [tok [post [-> Hl]]]. exists (String d tok), post.
           split; [reflexivity |]. cbn. now rewrite Hl, E.
        -- intros [tok [post [Hs Hl]]]. destruct tok as [| d' tok];
             [cbn in Hl; discriminate |].
           cbn in Hs, Hl. injection Hs as <- ->. injection Hl as _ Hl.
           exists tok, post. split; [reflexivity | exact Hl].
      * split; [discriminate |]. intros [tok [post [Hs Hl]]].
        destruct tok as [| d' tok]; [cbn in Hl; discriminate |].
        cbn in Hs, Hl. injection Hs as <- ->. injection Hl as Hc _.
        now symmetry in Hc.
Qed.

Lemma existsb_eq {A : Type} (f g : A -> bool) (l : list A) :
  (forall x, f x = g x) -> existsb f l = existsb g l.
Proof.
  intros H. induction l as [| x l IH]; cbn; [reflexivity |].
  now rewrite H, IH.
Qed.







(** * Further properties of the feature columns *)

(** ** Phone *)













(** ** Trimming: [name] and [category] *)















(** ** Words: [name_words] and [notes_word_count] *)

Lemma list_ascii_app (x y : string) :
  list_ascii_of_string (x ++ y)
  = (list_ascii_of_string x ++ list_ascii_of_string y)%list.
Proof.
  induction x as [| c x IH]; cbn; [reflexivity | now rewrite IH].
Qed.

Lemma is_empty_true (s : string) : Text.is_empty s = true -> s = EmptyString.
Proof. destruct s; [reflexivity | discriminate]. Qed.

Lemma is_empty_false (s : string) : Text.is_empty s = false -> s <> EmptyString.
Proof. destruct s; [discriminate | intros _ H; discriminate H]. Qed.

(** The tokens of [str.split()]: none is empty, none holds a blank, and
    together they are the non-blank characters of the text, in order. *)
Lemma split_ws_from_tokens (s : string) :
  forall cur,
    (forall c, In c (list_ascii_of_string cur) -> Text.is_space c = false) ->
    Forall (fun t => t <> EmptyString /\
                     forall c, In c (list_ascii_of_string t) ->
                               Text.is_space c = false)
           (Text.split_ws_from cur s) /\
    List.concat (map list_ascii_of_string (Text.split_ws_from cur s))
    = (list_ascii_of_string cur
       ++ filter (fun c => negb (Text.is_space c)) (list_ascii_of_string s))%list.
Proof.
  induction s as [| c s IH]; intros cur Hcur; cbn [Text.split_ws_from].
  - destruct (Text.is_empty cur) eqn:E; cbn.
    + apply is_empty_true in E. subst cur. split; [constructor | reflexivity].
    + split; [| now rewrite !app_nil_r].
      constructor; [| constructor]. split; [now apply is_empty_false | exact Hcur].
  - cbn [list_ascii_of_string filter]. destruct (Text.is_space c) eqn:Ec; cbn [negb].
    + destruct (IH EmptyString) as [Hf Hc]; [intros d [] |].
      destruct (Text.is_empty cur) eqn:E.
      * apply is_empty_true in E. subst cur. split; [exact Hf | exact Hc].
      * split.
        -- constructor; [| exact Hf].
           split; [now apply is_empty_false | exact Hcur].
        -- cbn [map List.concat]. now rewrite Hc.
    + destruct (IH (cur ++ String c EmptyString)) as [Hf Hc].
      * intros d Hd. rewrite list_ascii_app in Hd. apply in_app_or in Hd.
        destruct Hd as [Hd | [<- | []]]; [now apply Hcur | exact Ec].
      * split; [exact Hf |]. rewrite Hc, list_ascii_app. cbn.
        now rewrite <- app_assoc.
Qed.

Lemma tokens_at_most_characters (toks : list string) :
  Forall (fun t => t <> EmptyString /\
                   forall c, In c (list_ascii_of_string t) ->
                             Text.is_space c = false) toks ->
  (List.length toks
   <= List.length (List.concat (map list_ascii_of_string toks)))%nat.
Proof.
  induction 1 as [| t toks [Ht _] _ IH]; cbn; [lia |].
  rewrite length_app. destruct t as [| c t]; [contradiction | cbn; lia].
Qed.

Lemma word_count_bounds (s : string) :
  (List.length (Text.split_ws s) <= String.length s)%nat /\
  (List.length (Text.split_ws s) = 0%nat <-> blank s).
Proof.
  destruct (split_ws_from_tokens s EmptyString) as [Hf Hc]; [intros c [] |].
  fold (Text.split_ws s) in Hf, Hc. cbn [list_ascii_of_string app] in Hc.
  pose proof (tokens_at_most_characters _ Hf) as Hle. rewrite Hc in Hle.
  assert (Hlen : String.length s = List.length (list_ascii_of_string s))
    by (clear; induction s as [| c s IH]; cbn; congruence).
  split.
  - pose proof (filter_length_le (fun c => negb (Text.is_space c))
                  (list_ascii_of_string s)). lia.
  - split.
    + intros H0 c Hin. destruct (Text.is_space c) eqn:E; [reflexivity |].
      destruct (Text.split_ws s); [| discriminate]. cbn in Hc.
      assert (Hin' : In c (filter (fun c => negb (Text.is_space c))
                             (list_ascii_of_string s)))
        by (apply filter_In; split; [exact Hin | now rewrite E]).
      rewrite <- Hc in Hin'. contradiction.
    + intros Hb. destruct (Text.split_ws s) as [| t toks]; [reflexivity |].
      inversion Hf as [| ? ? [Ht Hns] _]; subst.
      destruct t as [| c t]; [contradiction |].
      assert (Hin : In c (filter (fun c => negb (Text.is_space c))
                            (list_ascii_of_string s)))
        by (rewrite <- Hc; cbn; now left).
      apply filter_In in Hin. destruct Hin as [Hin Hn].
      rewrite (Hb c Hin) in Hn. discriminate.
Qed.



(** ** Email domain *)












(** X7: [email_is_free] is 1 exactly when the row's domain is one of the six
    free providers, so only for rows that have an email. *)
Theorem email_is_free_iff (now : Z) (r : Raw.ContactRecord) (code : Z) :
  let f := engineer_row now r code in
  (Derived.email_is_free f = 1 <->
   exists d, Derived.email_domain f = Some d /\ In d free_domains) /\
  (Derived.email_is_free f = 0 \/ Derived.email_is_free f = 1) /\
  Derived.email_is_free f <= Derived.has_email f.
Proof.
  cbn [engineer_row Derived.email_is_free Derived.email_domain Derived.has_email].
  unfold email_is_free, isin_str, astype_int.
  destruct (Raw.email r) as [e |]; cbn [has_email notna astype_int Z.b2z].
  - unfold email_domain, where_. cbn [Z.eqb Pos.eqb].
    set (d := Text.lower _).
    destruct (existsb (String.eqb d) free_domains) eqn:E; cbn [Z.b2z].
    + split; [| split; [now right | lia]]. split; [intros _ | reflexivity].
      apply existsb_exists in E. destruct E as [x [Hin Hx]].
      apply String.eqb_eq in Hx. subst x. now exists d.
    + split; [| split; [now left | lia]]. split; [discriminate |].
      intros [x [Hx Hin]]. injection Hx as <-.
      assert (existsb (String.eqb d) free_domains = true)
        by (apply existsb_exists; exists d; split;
            [exact Hin | apply String.eqb_refl]).
      congruence.
  - cbn. split; [| split; [now left | lia]].
    split; [discriminate | intros [x [Hx _]]; discriminate].
Qed.

Lemma email_is_free_le_has_email (raw_email : option string) :
  let free := email_is_free (email_domain raw_email (has_email raw_email)) in
  (free = 0 \/ free = 1) /\ free <= has_email raw_email /\
  (has_email raw_email = 0 \/ has_email raw_email = 1).
Proof.
  destruct raw_email as [e |]; cbn [has_email notna astype_int Z.b2z].
  - unfold email_domain, where_, email_is_free, astype_int. cbn [Z.eqb Pos.eqb].
    destruct (isin_str free_domains _); cbn; split; auto; split; auto; lia.
  - cbn. split; auto. split; auto. lia.
Qed.

(** ** Notes *)

Lemma notes_has_url_le_has_notes (raw_notes : option string) :
  (notes_has_url raw_notes = 0 \/ notes_has_url raw_notes = 1) /\
  notes_has_url raw_notes <= has_notes raw_notes /\
  Z.b2z (50 <? notes_length raw_notes) <= has_notes raw_notes /\
  (has_notes raw_notes = 0 \/ has_notes raw_notes = 1).
Proof.
  destruct raw_notes as [n |].
  - unfold notes_has_url, has_notes, astype_int. cbn [notna Z.b2z].
    destruct (Re.contains false url_pattern (astype_str (Some n)));
      destruct (50 <? notes_length (Some n)); cbn; repeat split; auto; lia.
  - vm_compute. repeat split; auto; discriminate.
Qed.

(** X8: a row without notes has [has_notes], [notes_length],
    [notes_word_count] and [notes_has_url] all 0: the text "None" that
    [astype(str)] makes of the null cell holds no URL. *)
Theorem null_notes_features (now : Z) (r : Raw.ContactRecord) (code : Z) :
  Raw.notes r = None ->
  let f := engineer_row now r code in
  Derived.has_notes f = 0 /\ Derived.notes_length f = 0 /\
  Derived.notes_word_count f = 0 /\ Derived.notes_has_url f = 0.
Proof.
  intros H. cbn [engineer_row Derived.has_notes Derived.notes_length
                 Derived.notes_word_count Derived.notes_has_url].
  rewrite H. repeat split.
Qed.

Lemma null_notes_features_witness :
  Derived.notes_length (engineer_row 0 bare 0) = 0 /\
  Derived.notes_has_url (engineer_row 0 bare 0) = 0.
Proof.
  destruct (null_notes_features 0 bare 0 eq_refl) as [_ [H1 [_ H2]]].
  split; [exact H1 | exact H2].
Defined.

(** X9: for every row, notes or not: the word count is at most the length, a
    URL or a length over 50 needs notes. *)
Theorem notes_features_bounds (now : Z) (r : Raw.ContactRecord) (code : Z) :
  let f := engineer_row now r code in
  0 <= Derived.notes_word_count f <= Derived.notes_length f /\
  Derived.notes_has_url f <= Derived.has_notes f /\
  (Derived.has_notes f = 0 \/ Derived.has_notes f = 1 /\ Raw.notes r <> None) /\
  (Derived.has_notes f = 1 \/ Derived.notes_length f = 0).
Proof.
  cbn [engineer_row Derived.has_notes Derived.notes_length Derived.notes_word_count
       Derived.notes_has_url].
  destruct (notes_has_url_le_has_notes (Raw.notes r)) as [_ [Hu _]].
  destruct (word_count_bounds (fillna "" (Raw.notes r))) as [Hle _].
  unfold notes_word_count, notes_length, Text.len.
  split; [lia | split; [exact Hu |]].
  destruct (Raw.notes r); cbn; split; auto.
  right. split; [reflexivity | discriminate].
Qed.

(** ** Composite quality score *)

(** X10: whatever the row, the score computed at lines 175-180 lies between -1
    and 6; it reaches 5 exactly for rows with an email and notes longer
    than 50 characters, and is -1 exactly for rows with neither email nor
    notes. *)
Theorem contact_quality_score_range
  (now : Z) (r : Raw.ContactRecord) (code : Z) :
  let f := engineer_row now r code in
  let score := Derived.contact_quality_score (with_quality_score f) in
  - 1 <= score <= 6 /\
  (5 <= score <-> Derived.has_email f = 1 /\ 50 < Derived.notes_length f) /\
  (score = - 1 <-> Derived.has_email f = 0 /\ Derived.has_notes f = 0).
Proof.
  cbn [engineer_row with_quality_score Derived.contact_quality_score Derived.has_email
       Derived.has_notes Derived.notes_length Derived.email_is_free].
  destruct (email_is_free_le_has_email (Raw.email r)) as [Hf [Hfe He]].
  destruct (notes_has_url_le_has_notes (Raw.notes r)) as [_ [_ [Hl Hn]]].
  cbv zeta in Hf, Hfe.
  unfold contact_quality_score, invert_int, astype_int, Z.lnot, Z.pred.
  destruct (Z.ltb_spec 50 (notes_length (Raw.notes r))); cbn [Z.b2z] in *; lia.
Qed.

(** ** The label encoder *)

Lemma string_compare_refl (s : string) : String.compare s s = Eq.
Proof.
  induction s as [| c s IH]; cbn; [reflexivity |].
  unfold Ascii.compare. now rewrite N.compare_refl.
Qed.

Lemma string_compare_lt_trans (a : string) :
  forall b c,
    String.compare a b = Lt -> String.compare b c = Lt ->
    String.compare a c = Lt.
Proof.
  induction a as [| x a IH]; intros [| y b] [| z c]; cbn;
    try discriminate; try reflexivity.
  unfold Ascii.compare.
  destruct (N.compare_spec (N_of_ascii x) (N_of_ascii y)) as [Exy | Lxy | Gxy];
    try discriminate;
    destruct (N.compare_spec (N_of_ascii y) (N_of_ascii z)) as [Eyz | Lyz | Gyz];
    try discriminate; intros H1 H2.
  - rewrite Exy, Eyz, N.compare_refl. now apply IH with b.
  - rewrite Exy. now apply N.compare_lt_iff in Lyz as ->.
  - rewrite <- Eyz. now apply N.compare_lt_iff in Lxy as ->.
  - assert (L : (N_of_ascii x < N_of_ascii z)%N) by lia.
    now apply N.compare_lt_iff in L as ->.
Qed.

Lemma ltb_trans (a b c : string) :
  String.ltb a b = true -> String.ltb b c = true -> String.ltb a c = true.
Proof.
  unfold String.ltb. intros H1 H2.
  destruct (String.compare a b) eqn:E1; try discriminate.
  destruct (String.compare b c) eqn:E2; try discriminate.
  now rewrite (string_compare_lt_trans a b c E1 E2).
Qed.

Lemma ltb_irrefl (a : string) : String.ltb a a = false.
Proof. unfold String.ltb. now rewrite string_compare_refl. Qed.

Lemma ltb_total (a b : string) :
  String.eqb a b = false -> String.ltb a b = false -> String.ltb b a = true.
Proof.
  unfold String.ltb. intros Hne Hlt. rewrite String.compare_antisym.
  destruct (String.compare a b) eqn:E; cbn; try reflexivity; try discriminate.
  apply String.compare_eq_iff in E. subst b.
  now rewrite String.eqb_refl in Hne.
Qed.

Lemma insert_unique_In (s : string) (l : list string) (y : string) :
  In y (insert_unique s l) <-> y = s \/ In y l.
Proof.
  induction l as [| x l IH]; cbn; [intuition |].
  destruct (String.eqb_spec s x) as [-> | Hne].
  - cbn. intuition.
  - destruct (String.ltb s x); cbn; [intuition |].
    rewrite IH. intuition.
Qed.

Lemma insert_unique_increasing (s : string) (l : list string) :
  increasing l -> increasing (insert_unique s l).
Proof.
  unfold increasing.
  induction l as [| x l IH]; cbn; intros Hl.
  - constructor; constructor.
  - destruct (String.eqb s x) eqn:Eq; [exact Hl |].
    inversion Hl as [| ? ? Hl' Hx]; subst.
    destruct (String.ltb s x) eqn:Lt.
    + constructor; [exact Hl |]. constructor; [exact Lt |].
      apply Forall_forall. intros y Hy.
      rewrite Forall_forall in Hx. apply ltb_trans with x; auto.
    + constructor; [now apply IH |].
      apply Forall_forall. intros y Hy. apply insert_unique_In in Hy.
      destruct Hy as [-> | Hy]; [now apply ltb_total |].
      rewrite Forall_forall in Hx. now apply Hx.
Qed.

Lemma np_unique_increasing (col : list string) : increasing (np_unique col).
Proof.
  unfold np_unique. induction col as [| s col IH]; cbn.
  - constructor.
  - now apply insert_unique_increasing.
Qed.

Lemma np_unique_In (col : list string) (y : string) :
  In y (np_unique col) <-> In y col.
Proof.
  unfold np_unique. induction col as [| s col IH]; cbn; [reflexivity |].
  rewrite insert_unique_In, IH. intuition.
Qed.

Lemma increasing_NoDup (l : list string) : increasing l -> NoDup l.
Proof.
  unfold increasing. induction 1 as [| x l Hl IH Hx]; constructor; [| exact IH].
  intros Hin. rewrite Forall_forall in Hx. specialize (Hx x Hin).
  now rewrite ltb_irrefl in Hx.
Qed.

(** [index_of] and the position in [classes_] are inverse to each other. *)
Lemma index_of_nth (s : string) (classes : list string) :
  In s classes ->
  0 <= index_of s classes < Z.of_nat (List.length classes) /\
  nth_error classes (Z.to_nat (index_of s classes)) = Some s.
Proof.
  induction classes as [| x classes IH]; [intros [] |].
  intros Hin. cbn [index_of List.length].
  destruct (String.eqb_spec s x) as [-> | Hne].
  - split; [lia | reflexivity].
  - destruct Hin as [-> | Hin]; [contradiction |].
    destruct (IH Hin) as [Hr Hn]. split; [lia |].
    replace (Z.to_nat (1 + index_of s classes))
      with (S (Z.to_nat (index_of s classes))) by lia.
    exact Hn.
Qed.

Lemma nth_index_of (classes : list string) :
  NoDup classes ->
  forall k c, nth_error classes k = Some c ->
              index_of c classes = Z.of_nat k.
Proof.
  induction 1 as [| x classes Hx Hnd IH]; intros k c Hk.
  - destruct k; discriminate.
  - destruct k as [| k]; cbn [nth_error index_of] in Hk |- *.
    + injection Hk as ->. now rewrite String.eqb_refl.
    + destruct (String.eqb_spec c x) as [-> | Hne].
      * apply nth_error_In in Hk. contradiction.
      * rewrite (IH k c Hk). lia.
Qed.

(** X11: fitting leaves in [classes_] the labels of the column, each once, in
    increasing order. *)
Theorem fit_transform_classes (col : list string) :
  exists classes,
    classes_ (fst (fit_transform col)) = Some classes /\
    increasing classes /\
    NoDup classes /\
    (forall label, In label classes <-> In label col) /\
    (List.length classes <= List.length col)%nat.
Proof.
  exists (np_unique col). split; [reflexivity |].
  split; [apply np_unique_increasing |].
  split; [apply increasing_NoDup, np_unique_increasing |].
  split; [apply np_unique_In |].
  apply NoDup_incl_length; [apply increasing_NoDup, np_unique_increasing |].
  intros y Hy. now apply np_unique_In.
Qed.

Lemma engineer_map (now : Z) (g : string -> Z) (rows : list Raw.ContactRecord) :
  engineer now rows
    (map g (map (fun r => category (Raw.category r)) rows))
  = map (fun r => engineer_row now r (g (category (Raw.category r)))) rows.
Proof.
  unfold engineer. induction rows as [| r rows IH]; cbn; [reflexivity |].
  now rewrite IH.
Qed.

(** What [engineer_features] returns and leaves in the world. *)
Lemma engineer_features_result (rows : list Raw.ContactRecord) (w : World) :
  let classes := np_unique (map (fun r => category (Raw.category r)) rows) in
  engineer_features rows w
  = (Returned
       (map (fun r =>
               engineer_row (clock w) r
                 (index_of (category (Raw.category r)) classes)) rows),
     {| self := {| df := df (self w);
                   category_mapping := category_mapping (self w);
                   le_category := {| classes_ := Some classes |} |};
        log := log w; files := files w; clock := clock w |}).
Proof.
  cbv zeta. unfold engineer_features, bind, datetime_now, set_le_category,
    get_self, put_self, ret, fit_transform. cbn [fst snd self].
  now rewrite engineer_map.
Qed.

(** X12: after lines 97-169 every row's [category_encoded] is the position of
    its [category] in the encoder's [classes_]: looking the code up gives
    the label back, and two rows have the same code exactly when they have
    the same category. *)
Theorem category_encoded_inverts (rows : list Raw.ContactRecord) (w : World) :
  exists classes local w',
    engineer_features rows w = (Returned local, w') /\
    classes_ (le_category (self w')) = Some classes /\
    Forall (fun f =>
              0 <= Derived.category_encoded f < Z.of_nat (List.length classes) /\
              nth_error classes (Z.to_nat (Derived.category_encoded f))
              = Some (Derived.category f)) local /\
    (forall f g, In f local -> In g local ->
                 (Derived.category_encoded f = Derived.category_encoded g <->
                  Derived.category f = Derived.category g)).
Proof.
  pose proof (engineer_features_result rows w) as Hres. cbv zeta in Hres.
  set (classes := np_unique (map (fun r => category (Raw.category r)) rows))
    in *.
  assert (Hin : forall r, In r rows -> In (category (Raw.category r)) classes).
  { intros r Hr. apply np_unique_In. apply in_map_iff. now exists r. }
  assert (Hall : Forall (fun f =>
              0 <= Derived.category_encoded f < Z.of_nat (List.length classes) /\
              nth_error classes (Z.to_nat (Derived.category_encoded f))
              = Some (Derived.category f))
            (map (fun r => engineer_row (clock w) r
                     (index_of (category (Raw.category r)) classes)) rows)).
  { apply Forall_forall. intros f Hf. apply in_map_iff in Hf.
    destruct Hf as [r [<- Hr]]. cbn [engineer_row Derived.category_encoded Derived.category].
    apply index_of_nth. now apply Hin. }
  eexists classes, _, _. split; [exact Hres |].
  split; [reflexivity | split; [exact Hall |]].
  intros f g Hf Hg. rewrite Forall_forall in Hall.
  destruct (Hall f Hf) as [_ Nf]. destruct (Hall g Hg) as [_ Ng].
  split; intros E.
  - rewrite E in Nf. congruence.
  - apply in_map_iff in Hf, Hg.
    destruct Hf as [r [<- _]]. destruct Hg as [r' [<- _]].
    cbn [engineer_row Derived.category_encoded Derived.category] in E |- *.
    now rewrite E.
Qed.

(** X13: the codes are dense: with n distinct categories in the frame, every
    integer from 0 to n-1 is the [category_encoded] of some row, and its
    category is the class at that position. *)
Theorem category_encoded_dense (rows : list Raw.ContactRecord) (w : World) :
  exists classes local w',
    engineer_features rows w = (Returned local, w') /\
    classes_ (le_category (self w')) = Some classes /\
    (forall k label,
       nth_error classes k = Some label ->
       exists f, In f local /\
                 Derived.category_encoded f = Z.of_nat k /\
                 Derived.category f = label) /\
    (rows = [] <-> classes = []).
Proof.
  pose proof (engineer_features_result rows w) as Hres. cbv zeta in Hres.
  set (classes := np_unique (map (fun r => category (Raw.category r)) rows))
    in *.
  eexists classes, _, _. split; [exact Hres |]. split; [reflexivity |].
  split.
  - intros k label Hk.
    assert (Hin : In label classes) by (now apply nth_error_In in Hk).
    unfold classes in Hin. apply (proj1 (np_unique_In _ _)) in Hin.
    apply in_map_iff in Hin. destruct Hin as [r [Hr Hin]].
    exists (engineer_row (clock w) r
              (index_of (category (Raw.category r)) classes)).
    split; [apply in_map_iff; now exists r |].
    cbn [engineer_row Derived.category_encoded Derived.category].
    split; [| exact Hr]. rewrite Hr.
    apply nth_index_of; [| exact Hk].
    apply increasing_NoDup, np_unique_increasing.
  - split.
    + intros ->. reflexivity.
    + intros Hc. destruct rows as [| r rows]; [reflexivity |].
      assert (Hin : In (category (Raw.category r)) classes)
        by (apply np_unique_In; now left).
      rewrite Hc in Hin. contradiction.
Qed.

(** ** Time columns *)




(** X15: for a row whose [created_at] parsed, [days_since_creation] is the
    number of whole days elapsed up to the clock reading (rounded down), so
    it is negative exactly for instants after the reading. *)
Theorem days_since_creation_floor
  (now : Z) (r : Raw.ContactRecord) (code : Z) (created : Z) :
  to_datetime (Raw.created_at r) = Some created ->
  exists d,
    Derived.days_since_creation (engineer_row now r code) = Some d /\
    d * Time.ns_per_day <= now - created < (d + 1) * Time.ns_per_day /\
    (0 <= d <-> created <= now).
Proof.
  intros H. cbn [engineer_row Derived.days_since_creation]. rewrite H.
  unfold days_since_creation, sub_datetime. cbn [option_map].
  exists (Time.days_of (now - created)). split; [reflexivity |].
  unfold Time.days_of.
  assert (Hpos : 0 < Time.ns_per_day) by (vm_compute; reflexivity).
  pose proof (Z.div_mod (now - created) Time.ns_per_day ltac:(lia)) as Hdm.
  pose proof (Z.mod_pos_bound (now - created) Time.ns_per_day Hpos) as Hm.
  split; [nia |]. split; intros; nia.
Qed.

Lemma days_since_creation_floor_witness :
  exists d, Derived.days_since_creation (engineer_row 1706745600000000000 jane 0)
            = Some d /\ 0 <= d.
Proof.
  destruct (days_since_creation_floor 1706745600000000000 jane 0
              1704448800000000000 eq_refl) as [d [H1 [_ H2]]].
  exists d. split; [exact H1 |]. apply H2. vm_compute. discriminate.
Defined.

(** ** Extensions *)

Lemma any_of_here (ic : bool) (ws : list string) (prev : option ascii)
  (s : string) :
  Re.match_here ic (Re.any_of ws) prev s
  = existsb (fun t => Re.starts_with ic t s) ws.
Proof.
  unfold Re.match_here. rewrite rmatch_any_of. apply existsb_eq. intros t.
  rewrite rmatch_word. unfold Re.starts_with.
  rewrite (strip_word_prev ic t None prev).
  destruct (Re.strip_word ic t prev s) as [[p rest] |]; reflexivity.
Qed.

Lemma in_chars_split (c : ascii) (s : string) :
  In c (list_ascii_of_string s) -> exists pre rest, s = pre ++ String c rest.
Proof.
  induction s as [| d s IH]; cbn; [intros [] |].
  intros [-> | Hin].
  - exists EmptyString, s. reflexivity.
  - destruct (IH Hin) as [pre [rest ->]]. exists (String d pre), rest.
    reflexivity.
Qed.

Lemma lower_char_x (c : ascii) :
  Text.lower_char c = "x"%char <-> c = "x"%char \/ c = "X"%char.
Proof.
  destruct c as [[] [] [] [] [] [] [] []]; vm_compute;
    (split; [intros H; first [discriminate H | now left | now right]
            | intros [H | H]; first [discriminate H | reflexivity]]).
Qed.

Lemma lower_char_hash (c : ascii) :
  Text.lower_char c = "#"%char <-> c = "#"%char.
Proof.
  destruct c as [[] [] [] [] [] [] [] []]; vm_compute;
    (split; intros H; first [discriminate H | reflexivity]).
Qed.

(** X16: [has_extension] is 1 exactly when the phone, as typed, holds an "x",
    an "X" or a "#": the alternative "ext" of the pattern adds nothing,
    since it holds an "x" itself. *)
Theorem has_extension_iff (now : Z) (r : Raw.ContactRecord) (code : Z) :
  let f := engineer_row now r code in
  (Derived.has_extension f = 1 <->
   exists c, In c (list_ascii_of_string (Raw.phone r)) /\
             (c = "x"%char \/ c = "X"%char \/ c = "#"%char)) /\
  (Derived.has_extension f = 0 \/ Derived.has_extension f = 1).
Proof.
  cbn [engineer_row Derived.has_extension].
  unfold has_extension, Re.contains, astype_int. cbn [negb].
  split; [| destruct (Re.search_from true extension_pattern None (Raw.phone r));
            [now right | now left]].
  assert (Hb : forall b : bool, Z.b2z b = 1 <-> b = true)
    by (intros []; cbn; split; (reflexivity || discriminate)).
  rewrite Hb, search_from_split. unfold extension_pattern. split.
  - intros [pre [post [Hs H]]]. rewrite any_of_here in H.
    apply existsb_exists in H. destruct H as [t [Hin Hst]].
    apply starts_with_ignorecase in Hst. destruct Hst as [tok [rest [-> Hl]]].
    assert (Hfrom : forall c, In c (list_ascii_of_string tok) ->
                              In c (list_ascii_of_string (Raw.phone r))).
    { intros c Hc. rewrite Hs, !list_ascii_app.
      apply in_or_app. right. apply in_or_app. now left. }
    cbn in Hin. destruct Hin as [<- | [<- | [<- | []]]].
    + destruct tok as [| c tok]; [discriminate Hl |].
      cbn in Hl. injection Hl as Hc _. exists c.
      split; [apply Hfrom; now left |]. apply (proj1 (lower_char_x c)) in Hc. tauto.
    + destruct tok as [| e [| c tok]]; try discriminate Hl.
      cbn in Hl. injection Hl as _ Hc _. exists c.
      split; [apply Hfrom; right; now left |]. apply (proj1 (lower_char_x c)) in Hc. tauto.
    + destruct tok as [| c tok]; [discriminate Hl |].
      cbn in Hl. injection Hl as Hc _. exists c.
      split; [apply Hfrom; now left |]. apply (proj1 (lower_char_hash c)) in Hc. tauto.
  - intros [c [Hin Hc]]. apply in_chars_split in Hin.
    destruct Hin as [pre [rest Hs]]. exists pre, (String c rest).
    split; [exact Hs |]. rewrite any_of_here. apply existsb_exists.
    destruct Hc as [Hc | [Hc | Hc]].
    + exists "x". split; [now left |]. apply starts_with_ignorecase.
      exists (String c EmptyString), rest. split; [reflexivity |].
      cbn. now rewrite (proj2 (lower_char_x c) (or_introl Hc)).
    + exists "x". split; [now left |]. apply starts_with_ignorecase.
      exists (String c EmptyString), rest. split; [reflexivity |].
      cbn. now rewrite (proj2 (lower_char_x c) (or_intror Hc)).
    + exists "#". split; [right; right; now left |].
      apply starts_with_ignorecase.
      exists (String c EmptyString), rest. split; [reflexivity |].
      cbn. now rewrite (proj2 (lower_char_hash c) Hc).
Qed.

(** ** Companies *)







(** * Further properties of the methods *)

(** ** [run] *)

(** X18: [run] ends in one of three ways: the extraction fails and it returns,
    leaving the frame it had; the table is empty and it returns after a
    warning; the table has rows and [AttributeError] escapes from
    [clean_and_engineer_features].  In none of them is a file written or
    the category mapping assigned. *)
Theorem run_outcomes (w : World) :
  (fst (run None w) = Returned tt /\
   df (self (snd (run None w))) = df (self w)) /\
  (fst (run (Some []) w) = Returned tt /\
   df (self (snd (run (Some []) w))) = Some (Extracted []) /\
   exists l, log (snd (run (Some []) w)) = (l ++ [WarningDatabaseEmpty])%list) /\
  (forall r rows,
     fst (run (Some (r :: rows)) w)
     = Raised (AttributeError "ContactDataAnalyzer" "le") /\
     df (self (snd (run (Some (r :: rows)) w))) = Some (Extracted (r :: rows))) /\
  (forall db,
     files (snd (run db w)) = files w /\
     category_mapping (self (snd (run db w))) = category_mapping (self w)).
Proof.
  destruct w as [[d m le] lg fs ck].
  split; [split; reflexivity |].
  split; [split; [reflexivity | split; [reflexivity | eexists; reflexivity]] |].
  split; [intros r rows; split; reflexivity |].
  intros [[| r rows] |]; split; reflexivity.
Qed.

(** ** [export_datasets] *)

(** X19: on a frame as extracted, [export_datasets] has written the full CSV
    when selecting the ML columns raises [KeyError]: that file stays, and
    neither the ML files nor the mapping are written.  Without a frame it
    returns and writes nothing. *)
Theorem export_datasets_on_extracted_frame
  (w : World) (rows : list Raw.ContactRecord) :
  df (self w) = Some (Extracted rows) ->
  (exists k, In k ml_features /\
             fst (export_datasets w) = Raised (KeyError k)) /\
  files (snd (export_datasets w))
  = (files w ++ [FullCsv extracted_columns (map raw_cells rows)])%list /\
  self (snd (export_datasets w)) = self w /\
  log (snd (export_datasets w)) = log w /\
  (forall w0, df (self w0) = None -> export_datasets w0 = (Returned tt, w0)).
Proof.
  destruct w as [[d m le] lg fs ck]. cbn [self df]. intros ->.
  split; [exists "name_length"; split; [now left | reflexivity] |].
  split; [reflexivity | split; [reflexivity | split; [reflexivity |]]].
  intros [[d0 m0 le0] lg0 fs0 ck0]. cbn [self df]. intros ->. reflexivity.
Qed.

Lemma export_datasets_on_extracted_frame_witness :
  files (snd (export_datasets (holding (Extracted [jane]) 0)))
  = [FullCsv extracted_columns [raw_cells jane]].
Proof.
  destruct (export_datasets_on_extracted_frame
              (holding (Extracted [jane]) 0) [jane] eq_refl) as [_ [H _]].
  exact H.
Defined.

(** ** Histories *)

Lemma perform_outputs (w : World) (c : call) :
  never_engineered (self w) ->
  exists fs lg,
    files (perform w c) = (files w ++ fs)%list /\
    log (perform w c) = (log w ++ lg)%list /\
    Forall (fun a => exists rows, a = FullCsv extracted_columns rows) fs /\
    Forall (fun m => m <> InfoFeaturesCompleted /\ m <> InfoEdaSaved /\
                     m <> InfoExported /\ m <> InfoFinished) lg.
Proof.
  destruct w as [[d m le] lg fs ck]. unfold never_engineered.
  cbn [self df category_mapping files log]. intros [_ Hd].
  assert (Hnil : forall (A : Type) (l : list A), l = (l ++ [])%list)
    by (intros; now rewrite app_nil_r).
  assert (Hok : forall l : list log_record,
             forallb (fun m => match m with
                               | InfoFeaturesCompleted | InfoEdaSaved
                               | InfoExported | InfoFinished => false
                               | _ => true
                               end) l = true ->
             Forall (fun m => m <> InfoFeaturesCompleted /\ m <> InfoEdaSaved /\
                              m <> InfoExported /\ m <> InfoFinished) l).
  { intros l Hl. apply Forall_forall. intros x Hx.
    rewrite forallb_forall in Hl. specialize (Hl x Hx).
    destruct x; try discriminate Hl; repeat split; discriminate. }
  destruct c as [db | | | | db | now]; cbn [perform].
  - destruct db as [rows |]; cbn.
    + exists [], [InfoConnecting; InfoExtracted (List.length rows)].
      rewrite <- app_assoc. repeat split; auto; try (now apply Hok).
    + exists [], [InfoConnecting; ErrorDatabase].
      rewrite <- app_assoc. repeat split; auto; try (now apply Hok).
  - destruct d as [[[| r rows] | rows] |]; [| | contradiction |]; cbn.
    + exists [], []. repeat split; auto.
    + exists [], [InfoStartingFeatures]. repeat split; auto; try (now apply Hok).
    + exists [], []. repeat split; auto.
  - destruct d as [[rows | rows] |]; [| contradiction |]; cbn;
      exists [], []; repeat split; auto.
  - destruct d as [[rows | rows] |]; [| contradiction |]; cbn.
    + exists [FullCsv extracted_columns (map raw_cells rows)], [].
      repeat split; auto; try (constructor; [| constructor]);
        try (now exists (map raw_cells rows)).
    + exists [], []. repeat split; auto.
  - destruct db as [[| r rows] |]; cbn.
    + exists [], [InfoBanner; InfoStartingPipeline; InfoBanner; InfoConnecting;
                  InfoExtracted 0; WarningDatabaseEmpty].
      rewrite <- !app_assoc. repeat split; auto; try (now apply Hok).
    + exists [], [InfoBanner; InfoStartingPipeline; InfoBanner; InfoConnecting;
                  InfoExtracted (S (List.length rows)); InfoStartingFeatures].
      rewrite <- !app_assoc. repeat split; auto; try (now apply Hok).
    + exists [], [InfoBanner; InfoStartingPipeline; InfoBanner; InfoConnecting;
                  ErrorDatabase].
      rewrite <- !app_assoc. repeat split; auto; try (now apply Hok).
  - cbn. exists [], []. repeat split; auto.
Qed.

(** X20: whatever methods are called on a newly built analyzer, in whatever
    order: the only files ever written are full CSVs of the eight
    extracted columns (no ML dataset, no mapping, no report), and the log
    never says that the features, the report, the export or the pipeline
    completed. *)
Theorem history_outputs (cs : list call) (now : Z) :
  let w := history cs (fresh now) in
  Forall (fun a => exists rows, a = FullCsv extracted_columns rows) (files w) /\
  Forall (fun m => m <> InfoFeaturesCompleted /\ m <> InfoEdaSaved /\
                   m <> InfoExported /\ m <> InfoFinished) (log w) /\
  category_mapping (self w) = [] /\
  (df (self w) = None \/ exists rows, df (self w) = Some (Extracted rows)).
Proof.
  cbv zeta.
  assert (H : forall w0,
             never_engineered (self w0) ->
             Forall (fun a => exists rows, a = FullCsv extracted_columns rows)
                    (files w0) ->
             Forall (fun m => m <> InfoFeaturesCompleted /\ m <> InfoEdaSaved /\
                              m <> InfoExported /\ m <> InfoFinished) (log w0) ->
             never_engineered (self (history cs w0)) /\
             Forall (fun a => exists rows, a = FullCsv extracted_columns rows)
                    (files (history cs w0)) /\
             Forall (fun m => m <> InfoFeaturesCompleted /\ m <> InfoEdaSaved /\
                              m <> InfoExported /\ m <> InfoFinished)
                    (log (history cs w0))).
  { unfold history. induction cs as [| c cs IH]; intros w0 Hn Hf Hl; cbn;
      [auto |].
    destruct (perform_outputs w0 c Hn) as [fs [lg [Ef [El [Hfs Hlg]]]]].
    apply IH.
    - now apply perform_never_engineered.
    - rewrite Ef. apply Forall_app. auto.
    - rewrite El. apply Forall_app. auto. }
  destruct (H (fresh now)) as [[Hm Hd] [Hf Hl]];
    [split; [reflexivity | exact I] | constructor | constructor |].
  split; [exact Hf | split; [exact Hl | split; [exact Hm |]]].
  destruct (df (self (history cs (fresh now)))) as [[rows | rows] |];
    [right; now exists rows | contradiction | now left].
Qed.

(** ** URLs in notes *)





(** ** The frame and the analyzer around lines 94-169 *)

(** X22: the local frame has one row per extracted row, in the same order, and
    carries [id], [phone], [email] and [notes] as they were; building it
    leaves [self.df] alone (the work is done on a copy). *)
Theorem engineer_features_keeps_rows
  (rows : list Raw.ContactRecord) (w : World) :
  exists local w',
    engineer_features rows w = (Returned local, w') /\
    List.length local = List.length rows /\
    map (fun f => (Derived.id f, Derived.phone f, Derived.email f, Derived.notes f)) local
    = map (fun r => (Raw.id r, Raw.phone r, Raw.email r, Raw.notes r)) rows /\
    df (self w') = df (self w) /\
    category_mapping (self w') = category_mapping (self w) /\
    files w' = files w.
Proof.
  pose proof (engineer_features_result rows w) as Hres. cbv zeta in Hres.
  eexists _, _. split; [exact Hres |].
  split; [apply length_map |].
  split; [| repeat split].
  rewrite map_map. reflexivity.
Qed.

(** X23: a call of [clean_and_engineer_features] that fails on a frame with rows
    is not without effect: the encoder stays fitted on the frame's
    categories (sorted, each once) and the start of the work is logged;
    no file is written. *)
Theorem failed_engineering_leaves_encoder_fitted
  (w : World) (frame : DataFrame) :
  df (self w) = Some frame ->
  frame_empty frame = false ->
  exists classes,
    classes_ (le_category (self (snd (clean_and_engineer_features w))))
    = Some classes /\
    increasing classes /\
    (forall label,
       In label classes <->
       exists r, In r (base_rows frame) /\ category (Raw.category r) = label) /\
    log (snd (clean_and_engineer_features w))
    = (log w ++ [InfoStartingFeatures])%list /\
    files (snd (clean_and_engineer_features w)) = files w.
Proof.
  intros Hdf Hne.
  rewrite (clean_and_engineer_features_nonempty w frame Hdf Hne).
  cbn [snd after_failed_engineering self le_category log files fit_transform fst].
  eexists. split; [reflexivity |].
  split; [apply np_unique_increasing |].
  split; [| split; reflexivity].
  intros label. rewrite np_unique_In, in_map_iff.
  split; intros [r [H1 H2]]; exists r; auto.
Qed.

Lemma failed_engineering_leaves_encoder_fitted_witness :
  exists classes,
    classes_ (le_category
                (self (snd (clean_and_engineer_features
                              (holding (Extracted [jane; bare]) 0)))))
    = Some classes /\
    increasing classes.
Proof.
  destruct (failed_engineering_leaves_encoder_fitted
              (holding (Extracted [jane; bare]) 0) (Extracted [jane; bare])
              eq_refl eq_refl) as [classes [H1 [H2 _]]].
  exists classes. split; [exact H1 | exact H2].
Defined.
